(** * JinStore backend: products and cart

    A shallow embedding of [index.js]: the two mongoose models
    ([Product], [Cart]), the multer upload configuration, the four route
    handlers and the error-handling middleware.

    The program is an Express application; what it owns is the
    orchestration.  The pieces of JavaScript, mongoose and multer that the
    handlers call are modelled in the modules [JS], [Mongoose] and
    [Multer], each with the behaviour of the library it stands for
    written out:

    - numbers are doubles: each finite one is written as the rational
      it equals, and parsing and addition round to the nearest double;
    - the two collections are lists in insertion order, a document
      identifier is the value of its ObjectId, and the ObjectId
      generator of the process is a counter;
    - the clock ([Date.now()]) is read from the request environment;
    - the body of [POST /api/products] is a multipart form, whose text
      fields are strings; the body of [POST /api/cart] is JSON with a
      string [productId] and any JSON value as [quantity], either of
      which may be absent;
    - strings are the UTF-8 bytes of their text.

    Requests are served one after the other.  The uploads directory on
    disk is not part of the state: no handler reads it back. *)

From Stdlib Require Import ZArith QArith List String Ascii Bool Lia.
From Stdlib Require Import DecimalString Qround Qpower Qfield Permutation Sorted.
Import ListNotations.

Local Open Scope string_scope.
Local Open Scope list_scope.
Local Open Scope Z_scope.

Local Infix "+++" := String.append (at level 60, right associativity).

(* ================================================================== *)
(** ** JavaScript values used by the handlers *)
(* ================================================================== *)

Module JS.

(** A JavaScript number: [NaN], an infinity, or a finite value.  A
    finite value is a double, written as the rational it equals; the two
    zeros are not told apart. *)
Inductive number : Type :=
| NaN
| Infinity (negative : bool)
| Finite (q : Q).

Definition zero : number := Finite 0.

Definition isNaN (n : number) : bool :=
  match n with NaN => true | _ => false end.

(** [a <= b] on numbers: false as soon as one side is [NaN]. *)
Definition leb (a b : number) : bool :=
  match a, b with
  | NaN, _ | _, NaN => false
  | Infinity true, _ => true
  | _, Infinity false => true
  | Infinity false, _ => false
  | _, Infinity true => false
  | Finite x, Finite y => Qle_bool x y
  end.

Definition number_eqb (a b : number) : bool :=
  match a, b with
  | NaN, NaN => true
  | Infinity s, Infinity t => Bool.eqb s t
  | Finite x, Finite y => Qeq_bool x y
  | _, _ => false
  end.

(** Nearest integer to [x / y], ties to the even one ([0 <= x],
    [0 < y]). *)
Definition nearest_even (x y : Z) : Z :=
  let q := x / y in
  match 2 * (x mod y) ?= y with
  | Lt => q
  | Gt => q + 1
  | Eq => if Z.even q then q else q + 1
  end.

(** The double nearest to [n / d], for positive [n] and [d]: 53 bits of
    mantissa, exponents from -1022 to 1023, gradual underflow, overflow
    to infinity. *)
Definition round_positive (n d : Z) : number :=
  let e0 := Z.log2 n - Z.log2 d in
  let below :=
    if 0 <=? e0 then n <? d * 2 ^ e0 else n * 2 ^ (- e0) <? d in
  let e := if below then e0 - 1 else e0 in
  let p := Z.max e (-1022) - 52 in
  let m :=
    if 0 <=? p then nearest_even n (d * 2 ^ p)
    else nearest_even (n * 2 ^ (- p)) d in
  if (0 <=? p) && (2 ^ 1024 <=? m * 2 ^ p) then Infinity false
  else Finite (Qred (inject_Z m * Qpower (inject_Z 2) p)).

Definition negate (x : number) : number :=
  match x with
  | NaN => NaN
  | Infinity s => Infinity (negb s)
  | Finite q => Finite (Qred (Qopp q))
  end.

(** The Number value of a rational: the nearest double. *)
Definition round64 (q : Q) : number :=
  match Qnum q with
  | Z0 => Finite 0
  | Zpos n => round_positive (Zpos n) (Zpos (Qden q))
  | Zneg n => negate (round_positive (Zpos n) (Zpos (Qden q)))
  end.

(** [a + b] on numbers. *)
Definition add (a b : number) : number :=
  match a, b with
  | NaN, _ | _, NaN => NaN
  | Infinity s, Infinity t => if Bool.eqb s t then Infinity s else NaN
  | Infinity s, Finite _ | Finite _, Infinity s => Infinity s
  | Finite x, Finite y => round64 (x + y)
  end.

(** The number a JSON integer literal denotes. *)
Definition of_Z (z : Z) : number := round64 (inject_Z z).

(** Truthiness of a form field or JSON string: [undefined] and the
    empty string are falsy, every other string is truthy. *)
Definition truthy (v : option string) : bool :=
  match v with
  | None => false
  | Some s => negb (String.eqb s "")
  end.

(** [v || d] read on integers: [undefined] and [0] are falsy. *)
Definition or_else (v : option Z) (d : Z) : Z :=
  match v with
  | None => d
  | Some q => if q =? 0 then d else q
  end.

(** [v || d] for an optional string. *)
Definition or_else_str (v : option string) (d : string) : string :=
  match v with
  | None => d
  | Some s => if String.eqb s "" then d else s
  end.

Definition is_digit (c : ascii) : bool :=
  let n := N_of_ascii c in ((48 <=? n) && (n <=? 57))%N.

Definition digit_value (c : ascii) : Z :=
  Z.of_N (N_of_ascii c) - 48.

(** White space of one byte: space, tab, line feed, vertical tab, form
    feed, carriage return. *)
Definition is_space (c : ascii) : bool :=
  let n := N_of_ascii c in
  ((n =? 32) || ((9 <=? n) && (n <=? 13)))%N.

(** White space of several bytes, in the UTF-8 text of a string: the
    no-break space, the other space separators, the line and paragraph
    separators and the byte order mark. *)
Definition is_space2 (a b : ascii) : bool :=
  ((N_of_ascii a =? 194) && (N_of_ascii b =? 160))%N.

Definition is_space3 (a b c : ascii) : bool :=
  let x := N_of_ascii a in
  let y := N_of_ascii b in
  let z := N_of_ascii c in
  (((x =? 225) && (y =? 154) && (z =? 128))
   || ((x =? 226) && (y =? 128)
       && (((128 <=? z) && (z <=? 138)) || (z =? 168) || (z =? 169)
           || (z =? 175)))
   || ((x =? 226) && (y =? 129) && (z =? 159))
   || ((x =? 227) && (y =? 128) && (z =? 128))
   || ((x =? 239) && (y =? 187) && (z =? 191)))%N.

Definition leads_space (c : ascii) : bool :=
  let n := N_of_ascii c in
  ((n =? 194) || (n =? 225) || (n =? 226) || (n =? 227) || (n =? 239))%N.

Fixpoint trim_start (s : string) : string :=
  match s with
  | String c r =>
      if is_space c then trim_start r
      else if leads_space c then
        match r with
        | String c2 r2 =>
            if is_space2 c c2 then trim_start r2
            else
              match r2 with
              | String c3 r3 =>
                  if is_space3 c c2 c3 then trim_start r3 else s
              | EmptyString => s
              end
        | EmptyString => s
        end
      else s
  | EmptyString => s
  end.

Fixpoint trim_end (s : string) : string :=
  match s with
  | String c r =>
      if String.eqb (trim_start s) "" then "" else String c (trim_end r)
  | EmptyString => s
  end.

(** Longest run of decimal digits at the head of [s], and the rest. *)
Fixpoint span_digits (s : string) : list ascii * string :=
  match s with
  | String c r =>
      if is_digit c
      then let (ds, rest) := span_digits r in (c :: ds, rest)
      else ([], s)
  | EmptyString => ([], s)
  end.

Definition digits_value (ds : list ascii) : Z :=
  fold_left (fun acc c => 10 * acc + digit_value c) ds 0.

(** An optional sign ([true] for minus) and what follows it. *)
Definition split_sign (s : string) : bool * string :=
  match s with
  | String "+" r => (false, r)
  | String "-" r => (true, r)
  | _ => (false, s)
  end.

(** The digits after a decimal point, when there is one. *)
Definition fraction (s : string) : list ascii * string :=
  match s with
  | String "." r => span_digits r
  | _ => ([], s)
  end.

(** The exponent part [e[+-]ddd], worth 0 when it is absent or has no
    digit. *)
Definition exponent (s : string) : Z :=
  match s with
  | String c r =>
      if (N_of_ascii c =? 101)%N || (N_of_ascii c =? 69)%N then
        let '(neg, r') := split_sign r in
        match fst (span_digits r') with
        | [] => 0
        | ds => if neg : bool then - digits_value ds else digits_value ds
        end
      else 0
  | EmptyString => 0
  end.

(** What follows the exponent part; all of [s] when it has none. *)
Definition after_exponent (s : string) : string :=
  match s with
  | String c r =>
      if (N_of_ascii c =? 101)%N || (N_of_ascii c =? 69)%N then
        match span_digits (snd (split_sign r)) with
        | ([], _) => s
        | (_, rest) => rest
        end
      else s
  | EmptyString => s
  end.

(** The number a decimal literal denotes: the double nearest to
    [digits * 10 ^ e]. *)
Definition decimal_value (neg : bool) (ip fp : list ascii) (e : Z) : number :=
  let m := digits_value (ip ++ fp) in
  let v := (inject_Z m * Qpower (inject_Z 10) (e - Z.of_nat (List.length fp)))%Q in
  round64 (if neg then Qopp v else v).

(** [parseFloat]: skip leading white space, then read the longest
    prefix that is a decimal literal (sign, digits, fraction, exponent,
    or [Infinity]); [NaN] when there is none.  What follows the prefix
    is ignored. *)
Definition parseFloat (s : string) : number :=
  let '(neg, u) := split_sign (trim_start s) in
  if prefix "Infinity" u then Infinity neg
  else
    let '(ip, r1) := span_digits u in
    let '(fp, r2) := fraction r1 in
    match ip, fp with
    | [], [] => NaN
    | _, _ => decimal_value neg ip fp (exponent r2)
    end.

(** [parseFloat] of a form field: an absent field reads as the text
    [undefined], which has no numeric prefix. *)
Definition parseFloat_field (v : option string) : number :=
  match v with
  | Some s => parseFloat s
  | None => NaN
  end.

Definition radix_digit (base : Z) (c : ascii) : option Z :=
  let n := Z.of_N (N_of_ascii c) in
  let d :=
    if (48 <=? n) && (n <=? 57) then n - 48
    else if (97 <=? n) && (n <=? 102) then n - 87
    else if (65 <=? n) && (n <=? 70) then n - 55
    else base in
  if d <? base then Some d else None.

Fixpoint radix_value (base : Z) (s : string) (acc : Z) : option Z :=
  match s with
  | EmptyString => Some acc
  | String c r =>
      match radix_digit base c with
      | Some d => radix_value base r (base * acc + d)
      | None => None
      end
  end.

Definition radix_literal (base : Z) (s : string) : number :=
  match s with
  | EmptyString => NaN
  | _ =>
      match radix_value base s 0 with
      | Some z => round64 (inject_Z z)
      | None => NaN
      end
  end.

Definition decimal_literal (s : string) : number :=
  let '(neg, u) := split_sign s in
  if String.eqb u "Infinity" then Infinity neg
  else
    let '(ip, r1) := span_digits u in
    let '(fp, r2) := fraction r1 in
    match ip, fp with
    | [], [] => NaN
    | _, _ =>
        match after_exponent r2 with
        | EmptyString => decimal_value neg ip fp (exponent r2)
        | _ => NaN
        end
    end.

(** [Number(s)] of a string: white space is trimmed at both ends, the
    empty text is 0, and the rest must be one numeric literal from its
    first character to its last. *)
Definition string_to_number (s : string) : number :=
  let t := trim_end (trim_start s) in
  match t with
  | EmptyString => Finite 0
  | String "0" (String c r) =>
      let n := N_of_ascii c in
      if ((n =? 120) || (n =? 88))%N then radix_literal 16 r
      else if ((n =? 111) || (n =? 79))%N then radix_literal 8 r
      else if ((n =? 98) || (n =? 66))%N then radix_literal 2 r
      else decimal_literal t
  | _ => decimal_literal t
  end.

(** Decimal rendering of an integer, as string concatenation
    [n + str] does it. *)
Definition toString (n : Z) : string :=
  NilZero.string_of_int (Z.to_int n).

Fixpoint zeros (n : nat) : string :=
  match n with
  | O => ""
  | S k => String "0" (zeros k)
  end.

(** The least [t], searched upwards from [t0], with [x < 10 ^ t]. *)
Fixpoint magnitude (fuel : nat) (t0 : Z) (x : Q) : Z :=
  match fuel with
  | O => t0
  | S k =>
      if Qle_bool (Qpower (inject_Z 10) t0) x
      then magnitude k (t0 + 1) x
      else t0
  end.

(** The shortest decimal [s * 10 ^ (t - k)] that reads back as [x]: the
    digits [s] and the number [k] of them, tried from one digit up; of
    two candidates the closer to [x] wins, the even one on a tie. *)
Fixpoint shortest (fuel : nat) (k : Z) (t : Z) (x : Q) : Z * Z :=
  let scale := Qpower (inject_Z 10) (k - t) in
  let y := (x * scale)%Q in
  let lo := Qfloor y in
  let hi := Qceiling y in
  let reads c := number_eqb (round64 (inject_Z c / scale)) (Finite (Qred x)) in
  let pick :=
    match reads lo, reads hi with
    | true, true =>
        match (y - inject_Z lo ?= inject_Z hi - y)%Q with
        | Lt => Some lo
        | Gt => Some hi
        | Eq => Some (if Z.even lo then lo else hi)
        end
    | true, false => Some lo
    | false, true => Some hi
    | false, false => None
    end in
  match pick, fuel with
  | Some s, _ => (s, k)
  | None, S f => shortest f (k + 1) t x
  | None, O => (lo, k)
  end.

(** [Number::toString] of a positive finite double: the shortest digits
    that read back as it, laid out plainly between [1e-6] and [1e21]
    and with an exponent outside. *)
Definition positive_to_string (x : Q) : string :=
  let t := magnitude 640 (-324) x in
  let '(s0, k) := shortest 17 1 t x in
  let '(s, n) := if s0 =? 10 ^ k then (10 ^ (k - 1), t + 1) else (s0, t) in
  let ds := toString s in
  if (k <=? n) && (n <=? 21) then
    ds +++ zeros (Z.to_nat (n - k))
  else if (0 <? n) && (n <=? 21) then
    substring 0 (Z.to_nat n) ds +++ "." +++
    substring (Z.to_nat n) (Z.to_nat (k - n)) ds
  else if (-6 <? n) && (n <=? 0) then
    "0." +++ zeros (Z.to_nat (- n)) +++ ds
  else
    let e := n - 1 in
    let tail := "e" +++ (if e <? 0 then "-" else "+") +++ toString (Z.abs e) in
    if k =? 1 then ds +++ tail
    else substring 0 1 ds +++ "." +++ substring 1 (Z.to_nat (k - 1)) ds +++ tail.

(** [Number::toString]. *)
Definition number_to_string (x : number) : string :=
  match x with
  | NaN => "NaN"
  | Infinity false => "Infinity"
  | Infinity true => "-Infinity"
  | Finite q =>
      match Qnum q with
      | Z0 => "0"
      | Zpos _ => positive_to_string q
      | Zneg _ => "-" +++ positive_to_string (Qopp q)
      end
  end.

(** A value of a JSON body. *)
#[local] Set Warnings "-register-all".
Inductive value : Type :=
| VNull
| VBool (b : bool)
| VNum (n : number)
| VStr (s : string)
| VArr (items : list value)
| VObj (fields : list (string * value)).

(** A JSON integer. *)
Definition int (z : Z) : value := VNum (of_Z z).

(** Truthiness: [null], [false], [0], [NaN] and the empty string are
    falsy. *)
Definition truthy_value (v : value) : bool :=
  match v with
  | VNull => false
  | VBool b => b
  | VNum NaN => false
  | VNum (Infinity _) => true
  | VNum (Finite q) => negb (Qeq_bool q 0)
  | VStr s => negb (String.eqb s "")
  | VArr _ | VObj _ => true
  end.

(** [v || d] for a field of the body that may be absent. *)
Definition or_value (v : option value) (d : value) : value :=
  match v with
  | None => d
  | Some x => if truthy_value x then x else d
  end.

Definition has_key (k : string) (fields : list (string * value)) : bool :=
  existsb (fun f => String.eqb (fst f) k) fields.

Definition get_key (k : string) (fields : list (string * value))
  : option value :=
  match find (fun f => String.eqb (fst f) k) (rev fields) with
  | Some f => Some (snd f)
  | None => None
  end.

(** The text of a value, as concatenation and [join] read it; [None]
    is the TypeError of an object whose [toString] is not a function.
    An array is the texts of its items joined by commas, [null] items
    reading as nothing; any other object is [[object Object]]. *)
Fixpoint to_text (v : value) : option string :=
  match v with
  | VNull => Some "null"
  | VBool true => Some "true"
  | VBool false => Some "false"
  | VNum n => Some (number_to_string n)
  | VStr s => Some s
  | VArr items =>
      (fix join (l : list value) : option string :=
         match l with
         | [] => Some ""
         | x :: r =>
             let head :=
               match x with
               | VNull => Some ""
               | _ => to_text x
               end in
             match head, join r with
             | Some h, Some t =>
                 match r with
                 | [] => Some h
                 | _ :: _ => Some (h +++ "," +++ t)
                 end
             | _, _ => None
             end
         end) items
  | VObj fields =>
      if has_key "toString" fields then None else Some "[object Object]"
  end.

(** The result of [+]: a number, or a text when one side is a text. *)
Inductive primitive : Type :=
| PNum (n : number)
| PStr (s : string).

(** [lhs + rhs] where [lhs] is a stored quantity, a number or [null]
    ([None]); [None] as a result is a TypeError. *)
Definition plus (lhs : option number) (rhs : value) : option primitive :=
  let n := match lhs with Some x => x | None => zero end in
  let text :=
    match lhs with
    | Some x => number_to_string x
    | None => "null"
    end in
  match rhs with
  | VNull => Some (PNum (add n zero))
  | VBool b => Some (PNum (add n (if b then of_Z 1 else zero)))
  | VNum m => Some (PNum (add n m))
  | VStr s => Some (PStr (text +++ s))
  | VArr _ | VObj _ =>
      match to_text rhs with
      | Some t => Some (PStr (text +++ t))
      | None => None
      end
  end.

Fixpoint last_index_of (c : ascii) (s : string) (i : nat) : option nat :=
  match s with
  | EmptyString => None
  | String d r =>
      match last_index_of c r (S i) with
      | Some j => Some j
      | None => if Ascii.eqb c d then Some i else None
      end
  end.

Definition basename (s : string) : string :=
  match last_index_of "/" s 0 with
  | Some i => substring (S i) (String.length s - S i) s
  | None => s
  end.

(** [path.extname]: from the last dot of the last path component to
    its end; empty when there is no dot, when the only dot opens the
    component, or when the component is [..]. *)
Definition extname (p : string) : string :=
  let b := basename p in
  match last_index_of "." b 0 with
  | None => ""
  | Some O => ""
  | Some i => if String.eqb b ".." then "" else substring i (String.length b - i) b
  end.

End JS.

(* ================================================================== *)
(** ** Data model: the two schemas *)
(* ================================================================== *)

(** An ObjectId is a 12-byte value; clients write it as 24 hexadecimal
    digits. *)
Definition ObjectId : Type := N.

(** [productSchema]. *)
Record Product : Type := mkProduct {
  product_id : ObjectId;
  title : string;
  price : JS.number;
  discount : JS.number;
  itemType : string;
  rating : JS.number;
  images : list string;
  createdAt : Z
}.

(** [cartSchema].  The quantity is a number, or [null] ([None]). *)
Record Cart : Type := mkCart {
  cart_id : ObjectId;
  productId : ObjectId;
  quantity : option JS.number;
  addedAt : Z
}.

(** The database [productDB]: both collections in insertion order, and
    the ObjectId generator of the process. *)
Record DB : Type := mkDB {
  products : list Product;
  carts : list Cart;
  nextObjectId : ObjectId
}.

Definition empty_db (seed : ObjectId) : DB :=
  {| products := []; carts := []; nextObjectId := seed |}.

(* ================================================================== *)
(** ** mongoose: casts, validation, queries *)
(* ================================================================== *)

Module Mongoose.

(** What a query, a [save()] or the handler itself can throw. *)
Inductive Exn : Type :=
| CastError (path : string)
| ValidationError (path : string)
| TypeError.

(** A database operation: reads and writes the store, and either
    returns or throws. *)
Definition Op (A : Type) : Type := DB -> DB * (Exn + A).

Definition ret {A} (a : A) : Op A := fun db => (db, inr a).
Definition throw {A} (e : Exn) : Op A := fun db => (db, inl e).
Definition bind {A B} (m : Op A) (k : A -> Op B) : Op B :=
  fun db =>
    match m db with
    | (db', inr a) => k a db'
    | (db', inl e) => (db', inl e)
    end.

(** [try { m } catch (error) { h }]. *)
Definition try_catch {A} (m : Op A) (h : Exn -> A) : DB -> DB * A :=
  fun db =>
    match m db with
    | (db', inr a) => (db', a)
    | (db', inl e) => (db', h e)
    end.

Definition hex_value (c : ascii) : option N :=
  let n := N_of_ascii c in
  if ((48 <=? n) && (n <=? 57))%N then Some (n - 48)%N
  else if ((97 <=? n) && (n <=? 102))%N then Some (n - 87)%N
  else if ((65 <=? n) && (n <=? 70))%N then Some (n - 55)%N
  else None.

Fixpoint parse_hex (s : string) (acc : N) : option N :=
  match s with
  | EmptyString => Some acc
  | String c r =>
      match hex_value c with
      | Some d => parse_hex r (16 * acc + d)%N
      | None => None
      end
  end.

(** Cast of a string to an ObjectId: exactly 24 hexadecimal digits, as
    bson 5 and later read it; earlier versions also take a text of 12
    bytes. *)
Definition castObjectId (s : string) : option ObjectId :=
  if (String.length s =? 24)%nat then parse_hex s 0%N else None.

(** A new document takes the next identifier of the generator. *)
Definition newObjectId : Op ObjectId :=
  fun db =>
    (mkDB (products db) (carts db) (N.succ (nextObjectId db)),
     inr (nextObjectId db)).

Definition itemType_enum : list string := ["cold"; "organic"; "regular"].

(** Validation of a product document against [productSchema]: the
    path that fails first, if any.  A [NaN] does not cast to Number. *)
Definition validateProduct (p : Product) : option string :=
  if String.eqb (title p) "" then Some "title"
  else if JS.isNaN (price p) then Some "price"
  else if JS.isNaN (discount p) then Some "discount"
  else if negb (existsb (String.eqb (itemType p)) itemType_enum)
    then Some "itemType"
  else if JS.isNaN (rating p) then Some "rating"
  else if negb (JS.leb (JS.Finite 0) (rating p)) then Some "rating"
  else if negb (JS.leb (rating p) (JS.Finite 5)) then Some "rating"
  else None.

(** [new Product({...})]: the identifier and the [createdAt] default
    are set at construction. *)
Definition Product_new (now : Z) (title : option string)
    (price discount : JS.number) (itemType : string) (rating : JS.number)
    (images : list string) : Op Product :=
  bind newObjectId (fun id =>
  ret {| product_id := id;
         title := JS.or_else_str title "";
         price := price; discount := discount; itemType := itemType;
         rating := rating; images := images; createdAt := now |}).

(** [product.save()] of a new document: validate, then insert. *)
Definition Product_save (p : Product) : Op unit :=
  fun db =>
    match validateProduct p with
    | Some path => (db, inl (ValidationError path))
    | None =>
        (mkDB (products db ++ [p]) (carts db) (nextObjectId db), inr tt)
    end.

(** [Product.findById(id)]. *)
Definition Product_findById (id : string) : Op (option Product) :=
  fun db =>
    match castObjectId id with
    | None => (db, inl (CastError "_id"))
    | Some oid =>
        (db, inr (find (fun p => (product_id p =? oid)%N) (products db)))
    end.

Fixpoint insert_desc (p : Product) (l : list Product) : list Product :=
  match l with
  | [] => [p]
  | q :: r =>
      if createdAt q <=? createdAt p then p :: l
      else q :: insert_desc p r
  end.

Definition sort_createdAt_desc (l : list Product) : list Product :=
  fold_right insert_desc [] l.

(** [Product.find().sort({ createdAt: -1 })]. *)
Definition Product_find_sorted : Op (list Product) :=
  fun db => (db, inr (sort_createdAt_desc (products db))).

(** [Cart.findOne({ productId })]: the first match in storage order. *)
Definition Cart_findOne (pid : string) : Op (option Cart) :=
  fun db =>
    match castObjectId pid with
    | None => (db, inl (CastError "productId"))
    | Some oid =>
        (db, inr (find (fun c => (productId c =? oid)%N) (carts db)))
    end.

(** Cast of a value to the schema type Number.  An object stands for
    its [_id] when it has one; [null] and the empty text stay [null];
    a text or a boolean is read by [Number(...)]; what is left must be
    a number other than [NaN].  [None] is the cast error. *)
Definition castNumber (v : JS.value) : option (option JS.number) :=
  let val :=
    match v with
    | JS.VObj fields =>
        match JS.get_key "_id" fields with
        | Some x => x
        | None => v
        end
    | _ => v
    end in
  match val with
  | JS.VNull => Some None
  | JS.VStr s =>
      if String.eqb s "" then Some None
      else
        let n := JS.string_to_number s in
        if JS.isNaN n then None else Some (Some n)
  | JS.VBool b => Some (Some (if b then JS.of_Z 1 else JS.zero))
  | JS.VNum n => if JS.isNaN n then None else Some (Some n)
  | JS.VArr _ | JS.VObj _ => None
  end.

(** A cart document in memory: valid, or carrying the path whose value
    did not cast. *)
Inductive CartDoc : Type :=
| Valid (c : Cart)
| Invalid (path : string).

(** [new Cart({ productId, quantity })]: identifier and [addedAt] are
    set at construction, and both values are cast. *)
Definition Cart_new (now : Z) (pid : string) (quantity : JS.value)
  : Op CartDoc :=
  bind newObjectId (fun id =>
  match castObjectId pid, castNumber quantity with
  | Some oid, Some q =>
      ret (Valid {| cart_id := id; productId := oid;
                    quantity := q; addedAt := now |})
  | None, _ => ret (Invalid "productId")
  | _, None => ret (Invalid "quantity")
  end).

(** [cartItem.save()] of a new document: validate, then insert. *)
Definition Cart_insert (d : CartDoc) : Op Cart :=
  fun db =>
    match d with
    | Invalid path => (db, inl (ValidationError path))
    | Valid c =>
        (mkDB (products db) (carts db ++ [c]) (nextObjectId db), inr c)
    end.

(** [cartItem.quantity = v] on a fetched document: the value is cast. *)
Definition Cart_assign_quantity (c : Cart) (v : JS.primitive) : CartDoc :=
  let value :=
    match v with
    | JS.PNum n => JS.VNum n
    | JS.PStr s => JS.VStr s
    end in
  match castNumber value with
  | Some q => Valid (mkCart (cart_id c) (productId c) q (addedAt c))
  | None => Invalid "quantity"
  end.

(** Write the modified [quantity] to the first document whose [_id]
    matches. *)
Fixpoint updateOne_quantity (id : ObjectId) (q : option JS.number)
    (l : list Cart) : list Cart :=
  match l with
  | [] => []
  | c :: r =>
      if (cart_id c =? id)%N
      then mkCart (cart_id c) (productId c) q (addedAt c) :: r
      else c :: updateOne_quantity id q r
  end.

(** [cartItem.save()] of a document that was fetched and whose
    [quantity] was assigned: validate, then write. *)
Definition Cart_update (d : CartDoc) : Op Cart :=
  fun db =>
    match d with
    | Invalid path => (db, inl (ValidationError path))
    | Valid c =>
        (mkDB (products db)
           (updateOne_quantity (cart_id c) (quantity c) (carts db))
           (nextObjectId db), inr c)
    end.

(** [Cart.find().populate('productId')]: each line with the product
    its reference resolves to, or [null]. *)
Definition Cart_find_populated : Op (list (Cart * option Product)) :=
  fun db =>
    (db, inr (map (fun c =>
                (c, find (fun p => (product_id p =? productId c)%N)
                      (products db)))
              (carts db))).

End Mongoose.

Notation "x <- m ;; k" := (Mongoose.bind m (fun x => k))
  (at level 61, m at next level, right associativity).

(* ================================================================== *)
(** ** multer: the upload middleware *)
(* ================================================================== *)

(** One file part of a multipart request, with the clock reading at the
    moment the storage engine names it. *)
Record File : Type := mkFile {
  fieldname : string;
  originalname : string;
  mimetype : string;
  size : Z;
  receivedAt : Z
}.

(** An accepted file, as it appears in [req.files]. *)
Record StoredFile : Type := mkStoredFile {
  file : File;
  path : string
}.

Inductive MulterCode : Type :=
| LIMIT_FILE_SIZE
| LIMIT_UNEXPECTED_FILE.

(** The errors that reach [next(err)]: a [MulterError], or a plain
    [Error] with its message.  The wording of an unexpected file is
    that of multer 2.4; earlier versions say [Unexpected field]. *)
Inductive Error : Type :=
| MulterError (code : MulterCode)
| PlainError (message : string).

Definition error_message (e : Error) : string :=
  match e with
  | MulterError LIMIT_FILE_SIZE => "File too large"
  | MulterError LIMIT_UNEXPECTED_FILE => "Unexpected file field"
  | PlainError m => m
  end.

(** [storage.destination] and [storage.filename]. *)
Definition destination : string := "uploads/".

Definition filename (f : File) : string :=
  (JS.toString (receivedAt f) ++ JS.extname (originalname f))%string.

(** [fileFilter]: [cb(null, true)] or [cb(new Error(...), false)]. *)
Definition fileFilter (f : File) : Error + bool :=
  if String.eqb (mimetype f) "image/jpeg"
     || String.eqb (mimetype f) "image/png"
     || String.eqb (mimetype f) "image/jpg"
  then inr true
  else inl (PlainError "Only JPEG, JPG, and PNG images are allowed!").

(** [limits.fileSize]. *)
Definition fileSize : Z := 1024 * 1024 * 5.

Module Multer.

Definition store (f : File) : StoredFile :=
  {| file := f; path := (destination ++ filename f)%string |}.

(** A part with a file in it: a part without a filename is an empty
    file input. *)
Definition named (f : File) : bool :=
  negb (String.eqb (originalname f) "").

(** The parts are handled in the order they arrive, and the first
    error aborts the request.  A part without a filename is skipped.
    For each other part: the count left for its field is checked, then
    the file filter is asked, then the part is written unless it runs
    over the size limit.  A part of exactly [fileSize] bytes is
    written; multer up to 2.2 refuses it. *)
Fixpoint handle_parts (field : string) (filesLeft : Z) (parts : list File)
  : Error + list StoredFile :=
  match parts with
  | [] => inr []
  | f :: rest =>
      if negb (named f) then handle_parts field filesLeft rest
      else if negb (String.eqb (fieldname f) field) || (filesLeft <=? 0)
      then inl (MulterError LIMIT_UNEXPECTED_FILE)
      else
        match fileFilter f with
        | inl e => inl e
        | inr false => handle_parts field (filesLeft - 1) rest
        | inr true =>
            if fileSize <? size f
            then inl (MulterError LIMIT_FILE_SIZE)
            else
              match handle_parts field (filesLeft - 1) rest with
              | inl e => inl e
              | inr stored => inr (store f :: stored)
              end
        end
  end.

(** [upload.array(field, maxCount)]. *)
Definition array (field : string) (maxCount : Z) (parts : list File)
  : Error + list StoredFile :=
  handle_parts field maxCount parts.

End Multer.

(* ================================================================== *)
(** ** Requests and responses *)
(* ================================================================== *)

(** Body and attachments of [POST /api/products] (a multipart form:
    every text field is a string or absent). *)
Record ProductRequest : Type := mkProductRequest {
  req_title : option string;
  req_price : option string;
  req_discount : option string;
  req_itemType : option string;
  req_rating : option string;
  req_files : list File
}.

(** JSON body of [POST /api/cart]. *)
Record CartRequest : Type := mkCartRequest {
  req_productId : option string;
  req_quantity : option JS.value
}.

Inductive Body : Type :=
| ErrorBody (error : string)
| ProductCreated (message : string) (product : Product)
| CartAdded (message : string) (cartItem : Cart)
| ProductList (items : list Product)
| CartList (items : list (Cart * option Product)).

Record Response : Type := mkResponse {
  status : Z;
  body : Body
}.

Definition json (code : Z) (b : Body) : Response :=
  {| status := code; body := b |}.

(* ================================================================== *)
(** ** Routes *)
(* ================================================================== *)

Import Mongoose.

(** Error handling middleware. *)
Definition errorHandler (err : Error) : Response :=
  match err with
  | MulterError _ =>
      json 400 (ErrorBody ("File upload error: " ++ error_message err)%string)
  | PlainError _ => json 500 (ErrorBody "Something went wrong!")
  end.

(** The handler of [POST /api/products], once the upload middleware has
    filled [req.files]. *)
Definition create_product (now : Z) (req : ProductRequest)
    (files : option (list StoredFile)) : DB -> DB * Response :=
  try_catch
    (if negb (JS.truthy (req_title req)) || negb (JS.truthy (req_price req))
     then ret (json 400 (ErrorBody "Title and price are required"))
     else
       let imagePaths :=
         match files with
         | Some fs => map path fs
         | None => []
         end in
       product <- Product_new now
                    (req_title req)
                    (JS.parseFloat_field (req_price req))
                    (if JS.truthy (req_discount req)
                     then JS.parseFloat_field (req_discount req)
                     else JS.zero)
                    (JS.or_else_str (req_itemType req) "regular")
                    (if JS.truthy (req_rating req)
                     then JS.parseFloat_field (req_rating req)
                     else JS.zero)
                    imagePaths ;;
       _ <- Product_save product ;;
       ret (json 201 (ProductCreated "Product created successfully" product)))
    (fun _ => json 500 (ErrorBody "Internal server error")).

(** [app.post('/api/products', upload.array('images', 5), ...)]: an
    upload error skips the handler and goes to the error middleware. *)
Definition post_api_products (now : Z) (req : ProductRequest)
  : DB -> DB * Response :=
  fun db =>
    match Multer.array "images" 5 (req_files req) with
    | inl err => (db, errorHandler err)
    | inr stored => create_product now req (Some stored) db
    end.

(** [app.post('/api/cart', ...)]. *)
Definition post_api_cart (now : Z) (req : CartRequest) : DB -> DB * Response :=
  try_catch
    (match req_productId req with
     | Some pid =>
         if negb (JS.truthy (req_productId req))
         then ret (json 400 (ErrorBody "Product ID is required"))
         else
           product <- Product_findById pid ;;
           match product with
           | None => ret (json 404 (ErrorBody "Product not found"))
           | Some _ =>
               found <- Cart_findOne pid ;;
               cartItem <-
                 match found with
                 | Some item =>
                     match JS.plus (quantity item)
                             (JS.or_value (req_quantity req)
                                (JS.VNum (JS.Finite 1))) with
                     | Some total =>
                         Cart_update (Cart_assign_quantity item total)
                     | None => throw TypeError
                     end
                 | None =>
                     item <- Cart_new now pid
                               (JS.or_value (req_quantity req)
                                  (JS.VNum (JS.Finite 1))) ;;
                     Cart_insert item
                 end ;;
               ret (json 201
                      (CartAdded "Product added to cart successfully" cartItem))
           end
     | None => ret (json 400 (ErrorBody "Product ID is required"))
     end)
    (fun _ => json 500 (ErrorBody "Internal server error")).

(** [app.get('/api/products', ...)]. *)
Definition get_api_products : DB -> DB * Response :=
  try_catch
    (items <- Product_find_sorted ;;
     ret (json 200 (ProductList items)))
    (fun _ => json 500 (ErrorBody "Internal server error")).

(** [app.get('/api/cart', ...)]. *)
Definition get_api_cart : DB -> DB * Response :=
  try_catch
    (items <- Cart_find_populated ;;
     ret (json 200 (CartList items)))
    (fun _ => json 500 (ErrorBody "Internal server error")).

(* ================================================================== *)
(** ** The server as a machine *)
(* ================================================================== *)

Inductive Request : Type :=
| POST_products (now : Z) (req : ProductRequest)
| POST_cart (now : Z) (req : CartRequest)
| GET_products
| GET_cart.

Definition serve (r : Request) : DB -> DB * Response :=
  match r with
  | POST_products now req => post_api_products now req
  | POST_cart now req => post_api_cart now req
  | GET_products => get_api_products
  | GET_cart => get_api_cart
  end.

(** State after a sequence of requests, served one after the other. *)
Fixpoint run (rs : list Request) (db : DB) : DB :=
  match rs with
  | [] => db
  | r :: rest => run rest (fst (serve r db))
  end.

(** Responses of a sequence of requests. *)
Fixpoint responses (rs : list Request) (db : DB) : list Response :=
  match rs with
  | [] => []
  | r :: rest => snd (serve r db) :: responses rest (fst (serve r db))
  end.

(** The databases the server can be in: started empty, then any
    requests. *)
Inductive reachable : DB -> Prop :=
| reachable_start : forall seed, reachable (empty_db seed)
| reachable_serve : forall db r,
    reachable db -> reachable (fst (serve r db)).

(* ================================================================== *)
(** ** The handlers, case by case *)
(* ================================================================== *)

Definition matches_product (oid : ObjectId) (c : Cart) : bool :=
  (productId c =? oid)%N.

Definition has_id (oid : ObjectId) (p : Product) : bool :=
  (product_id p =? oid)%N.

(** The quantity a first add stores: the cast of [quantity || 1];
    [None] when it does not cast. *)
Definition first_quantity (v : option JS.value) : option (option JS.number) :=
  castNumber (JS.or_value v (JS.VNum (JS.Finite 1))).

(** The quantity a later add stores on a line that holds [old]: the
    cast of [old + (quantity || 1)]; [None] when the sum throws or does
    not cast. *)
Definition next_quantity (old : option JS.number) (v : option JS.value)
  : option (option JS.number) :=
  match JS.plus old (JS.or_value v (JS.VNum (JS.Finite 1))) with
  | Some (JS.PNum n) => castNumber (JS.VNum n)
  | Some (JS.PStr s) => castNumber (JS.VStr s)
  | None => None
  end.

(** The line a first add creates, and the line a later add rewrites. *)
Definition new_line (db : DB) (oid : ObjectId) (now : Z)
    (q : option JS.number) : Cart :=
  mkCart (nextObjectId db) oid q now.

Definition bumped (item : Cart) (q : option JS.number) : Cart :=
  mkCart (cart_id item) (productId item) q (addedAt item).

(** A stored quantity that is the integer [z]. *)
Definition units (z : Z) : option JS.number :=
  Some (JS.Finite (inject_Z z)).

(** The document [new Product] builds from a request. *)
Definition product_of (db : DB) (now : Z) (req : ProductRequest)
    (stored : list StoredFile) : Product :=
  {| product_id := nextObjectId db;
     title := JS.or_else_str (req_title req) "";
     price := JS.parseFloat_field (req_price req);
     discount := if JS.truthy (req_discount req)
                 then JS.parseFloat_field (req_discount req) else JS.zero;
     itemType := JS.or_else_str (req_itemType req) "regular";
     rating := if JS.truthy (req_rating req)
               then JS.parseFloat_field (req_rating req) else JS.zero;
     images := map path stored;
     createdAt := now |}.


(* ================================================================== *)
(** ** Invariant of the store *)
(* ================================================================== *)

(** Identifiers already handed out lie below the generator, no two
    documents of a collection share one, and no two cart lines reference
    the same product. *)
Definition below (n : ObjectId) (ids : list ObjectId) : Prop :=
  Forall (fun i => (i < n)%N) ids.

Definition well_formed (db : DB) : Prop :=
  below (nextObjectId db) (map product_id (products db)) /\
  below (nextObjectId db) (map cart_id (carts db)) /\
  NoDup (map product_id (products db)) /\
  NoDup (map cart_id (carts db)) /\
  NoDup (map productId (carts db)).

(** The cart lines that reference a product. *)
Definition lines_for (oid : ObjectId) (db : DB) : list Cart :=
  filter (matches_product oid) (carts db).

(** [POST /api/cart] for one product, once per clock reading and
    requested quantity. *)
Definition add_requests (pid : string) (adds : list (Z * option JS.value))
  : list Request :=
  map (fun a => POST_cart (fst a) (mkCartRequest (Some pid) (snd a))) adds.

(** Quantities given as JSON integers, or omitted. *)
Definition integers (adds : list (Z * option Z)) : list (Z * option JS.value) :=
  map (fun a => (fst a, option_map JS.int (snd a))) adds.

(** The magnitude below which every integer is a double and integer
    sums are not rounded. *)
Definition safe : Z := 2 ^ 53.

Definition sum (l : list Z) : Z := fold_right Z.add 0 l.

(* ================================================================== *)
(** ** Vocabulary of the specification *)
(* ================================================================== *)

Module Spec.

(** A form field that is absent or left empty. *)
Definition missing (v : option string) : Prop :=
  v = None \/ v = Some "".

(** The quantity a request asks for, an omitted one counting as 1. *)
Definition requested (q : option Z) : Z :=
  match q with
  | Some n => n
  | None => 1
  end.

Definition allowed_type (m : string) : Prop :=
  m = "image/jpeg" \/ m = "image/png" \/ m = "image/jpg".

Definition max_bytes : Z := 5242880.

(** The files of a request: the parts that carry a filename. *)
Definition attached (parts : list File) : list File :=
  filter Multer.named parts.

(** An upload the rules reject: more than five files, a file that is
    not an image of the three types, or a file over the size limit. *)
Definition rejected_upload (parts : list File) : Prop :=
  (5 < List.length (attached parts))%nat \/
  Exists (fun f => ~ allowed_type (mimetype f) \/ max_bytes < size f)
    (attached parts).

(** An upload the rules accept: at most five files, all in the
    [images] field, each an allowed image within the size limit. *)
Definition accepted_upload (parts : list File) : Prop :=
  (List.length parts <= 5)%nat /\
  Forall (fun f => fieldname f = "images" /\
                   allowed_type (mimetype f) /\
                   size f <= max_bytes) parts.


(** Text that is a decimal number from its first character to its
    last: sign, digits, fraction, exponent, and nothing else. *)
Definition decimal_text (s : string) : bool :=
  let '(_, u) := JS.split_sign s in
  let '(ip, r1) := JS.span_digits u in
  let '(fp, r2) := JS.fraction r1 in
  match ip, fp with
  | [], [] => false
  | _, _ =>
      match r2 with
      | EmptyString => true
      | String c r =>
          if (N_of_ascii c =? 101)%N || (N_of_ascii c =? 69)%N then
            match JS.span_digits (snd (JS.split_sign r)) with
            | (_ :: _, EmptyString) => true
            | _ => false
            end
          else false
      end
  end.

(** A numeric field left out, or one that reads as a number. *)
Definition numeric_or_omitted (v : option string) : Prop :=
  JS.truthy v = true -> JS.isNaN (JS.parseFloat_field v) = false.

(** A payload that [POST /api/products] accepts: the upload passes,
    title and price are given, every numeric field reads as a number,
    the item type is one of the three and the rating lies in 0..5. *)
Definition valid_payload (req : ProductRequest) : Prop :=
  accepted_upload (req_files req) /\
  JS.truthy (req_title req) = true /\
  JS.truthy (req_price req) = true /\
  JS.isNaN (JS.parseFloat_field (req_price req)) = false /\
  numeric_or_omitted (req_discount req) /\
  In (JS.or_else_str (req_itemType req) "regular") itemType_enum /\
  numeric_or_omitted (req_rating req) /\
  (JS.truthy (req_rating req) = true ->
   JS.leb (JS.Finite 0) (JS.parseFloat_field (req_rating req)) = true /\
   JS.leb (JS.parseFloat_field (req_rating req)) (JS.Finite 5) = true).

(** A request whose quantity, if it has one, is a JSON integer. *)
Inductive Call : Type :=
| Create (now : Z) (req : ProductRequest)
| Add (now : Z) (productId : option string) (quantity : option Z)
| ListProducts
| ListCart.

Definition request_of (c : Call) : Request :=
  match c with
  | Create now req => POST_products now req
  | Add now pid q => POST_cart now (mkCartRequest pid (option_map JS.int q))
  | ListProducts => GET_products
  | ListCart => GET_cart
  end.

(** A call that passes no negative quantity. *)
Definition no_negative_quantity (c : Call) : Prop :=
  match c with
  | Add _ _ (Some q) => 0 <= q
  | _ => True
  end.

(** The units a call asks for, an omitted or zero quantity counting
    as 1. *)
Definition asked (c : Call) : Z :=
  match c with
  | Add _ _ q => JS.or_else q 1
  | _ => 0
  end.

End Spec.

(** Most recent first: [a] may stand before [b]. *)
Definition newest_first (a b : Product) : Prop :=
  createdAt b <= createdAt a.

(** What [cartItem.save()] does to one line when the line [id] gets the
    quantity [q]. *)
Definition set_quantity (id : ObjectId) (q : option JS.number) (c : Cart)
  : Cart :=
  if (cart_id c =? id)%N
  then mkCart (cart_id c) (productId c) q (addedAt c)
  else c.

(** The quantity an add-to-cart request contributes: [quantity || 1]. *)
Definition effective (a : Z * option Z) : Z := JS.or_else (snd a) 1.

(* ================================================================== *)
(** ** Further vocabulary: what a stored document looks like *)
(* ================================================================== *)

(** The fields of a cart line that are set once, at insertion. *)
Definition line_identity (c : Cart) : ObjectId * ObjectId * Z :=
  (cart_id c, productId c, addedAt c).

(** A product document that [productSchema] accepts. *)
Definition conforms (p : Product) : Prop :=
  title p <> "" /\
  JS.isNaN (price p) = false /\
  JS.isNaN (discount p) = false /\
  In (itemType p) itemType_enum /\
  JS.leb (JS.Finite 0) (rating p) = true /\
  JS.leb (rating p) (JS.Finite 5) = true.

(** At most five images, each stored under the uploads directory. *)
Definition images_in_uploads (p : Product) : Prop :=
  (List.length (images p) <= 5)%nat /\
  Forall (fun path => prefix destination path = true) (images p).

(** Every cart line references a stored product. *)
Definition references_resolve (db : DB) : Prop :=
  incl (map productId (carts db)) (map product_id (products db)).

(** A file part that meets every rule of the upload. *)
Definition part_ok (f : File) : Prop :=
  fieldname f = "images" /\
  Spec.allowed_type (mimetype f) /\
  size f <= Spec.max_bytes.

(** A shop with one product, and the text of that product's id. *)
Definition milk : ProductRequest :=
  mkProductRequest (Some "Milk") (Some "3.50") None None None [].

Definition shop : DB :=
  run [POST_products 1700000000000 milk] (empty_db 0%N).

Definition milk_id : string := "000000000000000000000000".

(** A picture within the rules, a text file and a picture over the size
    limit. *)
Definition photo : File :=
  mkFile "images" "cat.png" "image/png" 1000 1700000000000.

Definition notes : File :=
  mkFile "images" "notes.txt" "text/plain" 10 1700000000000.

Definition poster : File :=
  mkFile "images" "poster.png" "image/png" 6291456 1700000000000.

Definition with_files (parts : list File) : ProductRequest :=
  mkProductRequest (Some "Milk") (Some "3.50") None None None parts.

(** Two adds of the same product: three units, then a default one. *)
Definition two_adds : list (Z * option Z) :=
  [(1700000000001, Some 3); (1700000000002, None)].

(** A line that holds a positive integer. *)
Definition positive_integer (c : Cart) : Prop :=
  exists z, 0 < z /\ quantity c = units z.

(** A quantity that is a positive integer, or [Infinity]. *)
Definition counting (q : option JS.number) : Prop :=
  (exists z, 0 < z /\ q = units z) \/ q = Some (JS.Infinity false).

(** A line that holds a positive integer or [Infinity]. *)
Definition positive_or_infinite (c : Cart) : Prop :=
  counting (quantity c).

(** What the cart holds of a product: the integer [z] of its one line,
    or no line and [z = 0]. *)
Definition held (oid : ObjectId) (db : DB) (z : Z) : Prop :=
  (lines_for oid db = [] /\ z = 0) \/
  (exists item, lines_for oid db = [item] /\ quantity item = units z).

(** The integer a line holds, 0 when it holds none. *)
Definition weight (c : Cart) : Z :=
  match quantity c with
  | Some (JS.Finite q) => Qfloor q
  | _ => 0
  end.

(** The cart holds positive integers only, [budget] units at most. *)
Definition within_budget (db : DB) (budget : Z) : Prop :=
  well_formed db /\
  Forall positive_integer (carts db) /\
  sum (map weight (carts db)) <= budget.

(** A file part that is stored in every version of the upload
    middleware: named, in the field [images], of an allowed type and
    under the size limit. *)
Definition part_within (f : File) : Prop :=
  Multer.named f = true /\
  fieldname f = "images" /\
  Spec.allowed_type (mimetype f) /\
  size f < Spec.max_bytes.

(** A shop with two products, the first of them in the cart. *)
Definition bread : ProductRequest :=
  mkProductRequest (Some "Bread") (Some "2") None None None [].

Definition pantry : DB :=
  run (POST_products 1700000000000 milk
       :: POST_products 1700000000001 bread
       :: add_requests milk_id (integers two_adds))
      (empty_db 0%N).

Definition bread_id : string := "000000000000000000000001".

(* ================================================================== *)
(** ** Properties *)
(* ================================================================== *)

(** *** Integers as doubles *)

Lemma Qred_inject_Z (z : Z) : Qred (inject_Z z) = inject_Z z.
Proof.
  unfold Qred, inject_Z.
  pose proof (Z.ggcd_gcd z 1) as Hg.
  pose proof (Z.ggcd_correct_divisors z 1) as Hd.
  destruct (Z.ggcd z 1) as [g [aa bb]]. cbn [fst snd] in *.
  rewrite Z.gcd_1_r in Hg. subst g. destruct Hd as [Ha Hb].
  rewrite Z.mul_1_l in Ha, Hb. subst aa bb. reflexivity.
Qed.

Lemma nearest_even_unit (x : Z) : JS.nearest_even x 1 = x.
Proof.
  unfold JS.nearest_even. rewrite Z.mod_1_r, Z.div_1_r. reflexivity.
Qed.

Lemma scaled_back (n k : Z) :
  0 <= k ->
  (inject_Z (n * 2 ^ k) * Qpower (inject_Z 2) (- k) == inject_Z n)%Q.
Proof.
  intros Hk.
  rewrite inject_Z_mult, Zpower_Qpower by assumption.
  rewrite Qpower_opp.
  assert (Hnz : ~ (Qpower (inject_Z 2) k == 0)%Q).
  { apply Qpower_not_0. discriminate. }
  field. exact Hnz.
Qed.

(** A positive integer up to [2 ^ 53] is a double. *)
Lemma round_positive_int (n : Z) :
  0 < n <= 2 ^ 53 ->
  JS.round_positive n 1 = JS.Finite (inject_Z n).
Proof.
  intros [Hpos Hle].
  destruct (Z.eq_dec n (2 ^ 53)) as [-> | Hne]; [vm_compute; reflexivity|].
  assert (Hsafe : n < 2 ^ 53) by lia. clear Hle Hne.
  assert (Hlog : 0 <= Z.log2 n < 53).
  { split; [apply Z.log2_nonneg|]. apply Z.log2_lt_pow2; lia. }
  assert (Hlow : 2 ^ Z.log2 n <= n) by (apply Z.log2_spec; lia).
  unfold JS.round_positive.
  change (Z.log2 1) with 0. rewrite Z.sub_0_r.
  destruct (0 <=? Z.log2 n) eqn:H0; [|apply Z.leb_gt in H0; lia].
  destruct (n <? 1 * 2 ^ Z.log2 n) eqn:Hb; [apply Z.ltb_lt in Hb; lia|].
  rewrite Z.max_l by lia.
  destruct (0 <=? Z.log2 n - 52) eqn:Hp.
  - apply Z.leb_le in Hp. assert (Hl : Z.log2 n = 52) by lia.
    rewrite Hl. change (52 - 52) with 0. change (1 * 2 ^ 0) with 1.
    rewrite nearest_even_unit.
    destruct (2 ^ 1024 <=? n * 2 ^ 0) eqn:Hover.
    { apply Z.leb_le in Hover. change (2 ^ 0) with 1 in Hover.
      assert (2 ^ 53 < 2 ^ 1024) by (apply Z.pow_lt_mono_r; lia). lia. }
    cbn [andb]. f_equal.
    transitivity (Qred (inject_Z n)); [|apply Qred_inject_Z].
    apply Qred_complete. change (Qpower (inject_Z 2) 0) with 1%Q.
    apply Qmult_1_r.
  - cbn [andb]. rewrite nearest_even_unit. f_equal.
    transitivity (Qred (inject_Z n)); [|apply Qred_inject_Z].
    apply Qred_complete.
    replace (Z.log2 n - 52) with (- (52 - Z.log2 n)) by lia.
    replace (- - (52 - Z.log2 n)) with (52 - Z.log2 n) by lia.
    apply scaled_back. lia.
Qed.

(** The double nearest to a positive integer is a positive integer,
    unless it is [Infinity]. *)
Lemma round_positive_integer (n : Z) :
  0 < n ->
  JS.round_positive n 1 = JS.Infinity false \/
  exists k, 0 < k /\ JS.round_positive n 1 = JS.Finite (inject_Z k).
Proof.
  intros Hpos.
  destruct (Z_le_gt_dec n (2 ^ 53)) as [Hsmall | Hbig].
  { right. exists n. split; [exact Hpos | apply round_positive_int; lia]. }
  assert (Hlog : 53 <= Z.log2 n).
  { apply Z.log2_le_pow2; lia. }
  assert (Hlow : 2 ^ Z.log2 n <= n) by (apply Z.log2_spec; lia).
  unfold JS.round_positive.
  change (Z.log2 1) with 0. rewrite Z.sub_0_r.
  destruct (0 <=? Z.log2 n) eqn:H0; [|apply Z.leb_gt in H0; lia].
  destruct (n <? 1 * 2 ^ Z.log2 n) eqn:Hb; [apply Z.ltb_lt in Hb; lia|].
  rewrite Z.max_l by lia.
  destruct (0 <=? Z.log2 n - 52) eqn:Hp; [|apply Z.leb_gt in Hp; lia].
  set (p := Z.log2 n - 52) in *.
  set (m := JS.nearest_even n (1 * 2 ^ p)).
  destruct (true && (2 ^ 1024 <=? m * 2 ^ p)); [now left|].
  right. exists (m * 2 ^ p).
  assert (Hscale : 0 < 2 ^ p) by (apply Z.pow_pos_nonneg; lia).
  assert (Hm : 0 < m).
  { assert (Hq : 1 <= n / (1 * 2 ^ p)).
    { apply Z.div_le_lower_bound; [lia|].
      assert (2 ^ p <= 2 ^ Z.log2 n) by (apply Z.pow_le_mono_r; lia). lia. }
    subst m. unfold JS.nearest_even. cbv zeta.
    destruct (2 * (n mod (1 * 2 ^ p)) ?= 1 * 2 ^ p); [|lia..].
    destruct (Z.even (n / (1 * 2 ^ p))); lia. }
  split; [lia|]. f_equal.
  transitivity (Qred (inject_Z (m * 2 ^ p))); [|apply Qred_inject_Z].
  apply Qred_complete.
  rewrite inject_Z_mult, Zpower_Qpower by lia. reflexivity.
Qed.

(** Every integer of magnitude up to [2 ^ 53] is a double. *)
Lemma of_Z_exact (z : Z) :
  - safe <= z <= safe -> JS.of_Z z = JS.Finite (inject_Z z).
Proof.
  unfold safe. intros Hz. unfold JS.of_Z, JS.round64. cbn [inject_Z Qnum Qden].
  destruct z as [|n|n].
  - reflexivity.
  - apply round_positive_int. lia.
  - rewrite round_positive_int by lia.
    cbn [JS.negate]. f_equal.
    change (Qopp (inject_Z (Z.pos n))) with (inject_Z (Z.neg n)).
    apply Qred_inject_Z.
Qed.

Lemma add_exact (a b : Z) :
  - safe <= a + b <= safe ->
  JS.add (JS.Finite (inject_Z a)) (JS.Finite (inject_Z b))
  = JS.Finite (inject_Z (a + b)).
Proof.
  intros H. cbn [JS.add].
  replace (inject_Z a + inject_Z b)%Q with (inject_Z (a + b)).
  - now apply of_Z_exact.
  - unfold Qplus, inject_Z. cbn [Qnum Qden].
    now rewrite !Z.mul_1_r.
Qed.

Lemma of_Z_one : JS.of_Z 1 = JS.Finite 1.
Proof. reflexivity. Qed.

(** *** The handlers, unfolded *)

Lemma post_api_cart_unfold (now : Z) (req : CartRequest) (db : DB) :
  post_api_cart now req db =
  match req_productId req with
  | None => (db, json 400 (ErrorBody "Product ID is required"))
  | Some pid =>
      if String.eqb pid "" then
        (db, json 400 (ErrorBody "Product ID is required"))
      else
        match castObjectId pid with
        | None => (db, json 500 (ErrorBody "Internal server error"))
        | Some oid =>
            match find (has_id oid) (products db) with
            | None => (db, json 404 (ErrorBody "Product not found"))
            | Some _ =>
                match find (matches_product oid) (carts db) with
                | Some item =>
                    match next_quantity (quantity item) (req_quantity req) with
                    | Some q =>
                        (mkDB (products db)
                           (updateOne_quantity (cart_id item) q (carts db))
                           (nextObjectId db),
                         json 201
                           (CartAdded "Product added to cart successfully"
                              (bumped item q)))
                    | None =>
                        (db, json 500 (ErrorBody "Internal server error"))
                    end
                | None =>
                    match first_quantity (req_quantity req) with
                    | Some q =>
                        (mkDB (products db)
                           (carts db ++ [new_line db oid now q])
                           (N.succ (nextObjectId db)),
                         json 201
                           (CartAdded "Product added to cart successfully"
                              (new_line db oid now q)))
                    | None =>
                        (mkDB (products db) (carts db)
                           (N.succ (nextObjectId db)),
                         json 500 (ErrorBody "Internal server error"))
                    end
                end
            end
        end
  end.
Proof.
  unfold post_api_cart, try_catch, JS.truthy.
  destruct (req_productId req) as [pid|]; [|reflexivity].
  destruct (String.eqb pid ""); [reflexivity|].
  cbn [negb].
  unfold bind at 1. unfold Product_findById.
  destruct (castObjectId pid) as [oid|] eqn:Hcast; [|reflexivity].
  fold (has_id oid).
  destruct (find (has_id oid) (products db)); [|reflexivity].
  unfold bind at 1. unfold bind at 2. unfold Cart_findOne.
  rewrite Hcast. fold (matches_product oid).
  destruct (find (matches_product oid) (carts db)) as [item|].
  - unfold next_quantity.
    destruct (JS.plus (quantity item)
                (JS.or_value (req_quantity req) (JS.VNum (JS.Finite 1))))
      as [[n|s]|]; [| |reflexivity];
      unfold Cart_update, Cart_assign_quantity;
      destruct (castNumber _); reflexivity.
  - unfold bind, Cart_new, newObjectId, bind, first_quantity. rewrite Hcast.
    destruct (castNumber _); reflexivity.
Qed.

Lemma post_api_products_unfold (now : Z) (req : ProductRequest) (db : DB) :
  post_api_products now req db =
  match Multer.array "images" 5 (req_files req) with
  | inl err => (db, errorHandler err)
  | inr stored =>
      if negb (JS.truthy (req_title req)) || negb (JS.truthy (req_price req))
      then (db, json 400 (ErrorBody "Title and price are required"))
      else
        let p := product_of db now req stored in
        match validateProduct p with
        | Some _ =>
            (mkDB (products db) (carts db) (N.succ (nextObjectId db)),
             json 500 (ErrorBody "Internal server error"))
        | None =>
            (mkDB (products db ++ [p]) (carts db) (N.succ (nextObjectId db)),
             json 201 (ProductCreated "Product created successfully" p))
        end
  end.
Proof.
  unfold post_api_products.
  destruct (Multer.array "images" 5 (req_files req)) as [err|stored];
    [reflexivity|].
  unfold create_product, try_catch.
  destruct (negb (JS.truthy (req_title req)) || negb (JS.truthy (req_price req)));
    [reflexivity|].
  unfold bind, Product_new, newObjectId, bind, ret, Product_save.
  fold (product_of db now req stored).
  cbv zeta.
  destruct (validateProduct (product_of db now req stored)); reflexivity.
Qed.

(** *** The upload middleware *)

Lemma fileFilter_allowed (f : File) :
  Spec.allowed_type (mimetype f) -> fileFilter f = inr true.
Proof.
  unfold Spec.allowed_type, fileFilter.
  intros [H | [H | H]]; rewrite H; reflexivity.
Qed.

Lemma fileFilter_refused (f : File) :
  ~ Spec.allowed_type (mimetype f) ->
  fileFilter f = inl (PlainError "Only JPEG, JPG, and PNG images are allowed!").
Proof.
  unfold Spec.allowed_type, fileFilter. intros H.
  destruct (String.eqb_spec (mimetype f) "image/jpeg") as [E|_];
    [exfalso; apply H; now left|].
  destruct (String.eqb_spec (mimetype f) "image/png") as [E|_];
    [exfalso; apply H; right; now left|].
  destruct (String.eqb_spec (mimetype f) "image/jpg") as [E|_];
    [exfalso; apply H; right; now right|].
  reflexivity.
Qed.

Lemma allowed_type_dec (m : string) :
  {Spec.allowed_type m} + {~ Spec.allowed_type m}.
Proof.
  unfold Spec.allowed_type.
  destruct (string_dec m "image/jpeg"); [left; tauto|].
  destruct (string_dec m "image/png"); [left; tauto|].
  destruct (string_dec m "image/jpg"); [left; tauto|].
  right; tauto.
Qed.

Lemma attached_cons (f : File) (rest : list File) :
  Spec.attached (f :: rest)
  = if Multer.named f then f :: Spec.attached rest else Spec.attached rest.
Proof. reflexivity. Qed.

(** Whatever the count still allowed, a batch with too many files or
    with a file against the rules ends in an error. *)
Lemma handle_parts_rejects (parts : list File) :
  forall n, 0 <= n ->
    n < Z.of_nat (List.length (Spec.attached parts)) \/
    Exists (fun f => ~ Spec.allowed_type (mimetype f) \/
                     Spec.max_bytes < size f) (Spec.attached parts) ->
    exists e, Multer.handle_parts "images" n parts = inl e.
Proof.
  induction parts as [|f rest IH]; intros n Hn Hbad.
  - destruct Hbad as [Hlen | Hex]; [simpl in Hlen; lia | inversion Hex].
  - cbn [Multer.handle_parts]. rewrite attached_cons in Hbad.
    destruct (Multer.named f); cbn [negb]; [|now apply IH].
    destruct (negb (String.eqb (fieldname f) "images") || (n <=? 0)) eqn:Hguard;
      [eexists; reflexivity|].
    apply orb_false_iff in Hguard as [_ Hpos]. apply Z.leb_gt in Hpos.
    destruct (allowed_type_dec (mimetype f)) as [Hok | Hno].
    + rewrite (fileFilter_allowed f Hok).
      destruct (fileSize <? size f) eqn:Hsize; [eexists; reflexivity|].
      apply Z.ltb_ge in Hsize.
      destruct (IH (n - 1)) as [e He].
      * lia.
      * destruct Hbad as [Hlen | Hex].
        -- left. cbn [List.length] in Hlen. lia.
        -- right. inversion Hex as [? ? Hf | ? ? Hrest]; subst; [|assumption].
           destruct Hf as [Hf | Hf]; [contradiction|].
           unfold Spec.max_bytes, fileSize in *. lia.
      * rewrite He. eexists; reflexivity.
    + rewrite (fileFilter_refused f Hno). eexists; reflexivity.
Qed.

Lemma attached_length (parts : list File) :
  (List.length (Spec.attached parts) <= List.length parts)%nat.
Proof. apply filter_length_le. Qed.

(** A batch within the rules is stored whole, in order, but for the
    parts without a file. *)
Lemma handle_parts_accepts (parts : list File) :
  forall n, Z.of_nat (List.length parts) <= n ->
    Forall (fun f => fieldname f = "images" /\
                     Spec.allowed_type (mimetype f) /\
                     size f <= Spec.max_bytes) parts ->
    Multer.handle_parts "images" n parts
    = inr (map Multer.store (Spec.attached parts)).
Proof.
  induction parts as [|f rest IH]; intros n Hn Hall; [reflexivity|].
  inversion Hall as [|? ? [Hfield [Htype Hsize]] Hrest]; subst.
  cbn [Multer.handle_parts List.length] in *. rewrite attached_cons.
  destruct (Multer.named f); cbn [negb map].
  2:{ apply IH; [lia | assumption]. }
  rewrite Hfield, String.eqb_refl. cbn [negb orb].
  destruct (n <=? 0) eqn:Hpos; [apply Z.leb_le in Hpos; lia|].
  rewrite (fileFilter_allowed f Htype).
  destruct (fileSize <? size f) eqn:Hbig.
  - apply Z.ltb_lt in Hbig. unfold Spec.max_bytes, fileSize in *. lia.
  - rewrite IH; [reflexivity | lia | assumption].
Qed.

Lemma accepted_upload_stored (parts : list File) :
  Spec.accepted_upload parts ->
  Multer.array "images" 5 parts
  = inr (map Multer.store (Spec.attached parts)).
Proof.
  intros [Hlen Hall]. apply handle_parts_accepts; [lia | assumption].
Qed.

Lemma rejected_upload_error (parts : list File) :
  Spec.rejected_upload parts ->
  exists e, Multer.array "images" 5 parts = inl e.
Proof.
  intros H. apply handle_parts_rejects; [lia|].
  destruct H as [H | H]; [left; lia | right; assumption].
Qed.

(** *** Frame: each POST route writes one collection only *)

Lemma post_api_cart_products (now : Z) (req : CartRequest) (db : DB) :
  products (fst (post_api_cart now req db)) = products db.
Proof.
  rewrite post_api_cart_unfold.
  destruct (req_productId req) as [pid|]; [|reflexivity].
  destruct (String.eqb pid ""); [reflexivity|].
  destruct (castObjectId pid) as [oid|]; [|reflexivity].
  destruct (find (has_id oid) (products db)); [|reflexivity].
  destruct (find (matches_product oid) (carts db)) as [item|].
  - destruct (next_quantity _ _); reflexivity.
  - destruct (first_quantity _); reflexivity.
Qed.

Lemma post_api_products_carts (now : Z) (req : ProductRequest) (db : DB) :
  carts (fst (post_api_products now req db)) = carts db.
Proof.
  rewrite post_api_products_unfold.
  destruct (Multer.array "images" 5 (req_files req)); [reflexivity|].
  destruct (negb (JS.truthy (req_title req)) || negb (JS.truthy (req_price req)));
    [reflexivity|].
  cbv zeta.
  destruct (validateProduct _); reflexivity.
Qed.

(** C10. [POST /api/cart] leaves the products collection as it found
    it, whether it answers 201, 400, 404 or 500, and
    [POST /api/products] leaves the cart collection as it found it. *)
Theorem post_routes_frame :
  (forall now req db, products (fst (post_api_cart now req db)) = products db) /\
  (forall now req db, carts (fst (post_api_products now req db)) = carts db).
Proof.
  split; intros.
  - apply post_api_cart_products.
  - apply post_api_products_carts.
Qed.

(** C7. A request whose upload breaks a rule (a sixth file, a file that
    is not one of the three image types, a file over 5,242,880 bytes)
    leaves the database as it was, whatever its title and price: no
    product record is created, and the answer is an error. *)
Theorem rejected_upload_creates_no_product
    (now : Z) (req : ProductRequest) (db : DB) :
  Spec.rejected_upload (req_files req) ->
  fst (post_api_products now req db) = db /\
  products (fst (post_api_products now req db)) = products db /\
  400 <= status (snd (post_api_products now req db)).
Proof.
  intros Hrej.
  destruct (rejected_upload_error _ Hrej) as [e He].
  rewrite post_api_products_unfold, He. cbn [fst snd].
  repeat split.
  destruct e as [code|msg]; cbn; lia.
Qed.

Lemma rejected_upload_creates_no_product_witness :
  let big := mkFile "images" "big.png" "image/png" 6291456 1700000000000 in
  let req := mkProductRequest (Some "Milk") (Some "3.50") None None None [big] in
  Spec.rejected_upload (req_files req) /\
  fst (post_api_products 1700000000001 req (empty_db 0%N)) = empty_db 0%N.
Proof.
  intros big req.
  assert (Hrej : Spec.rejected_upload (req_files req)).
  { right. cbn. constructor. right. unfold Spec.max_bytes. cbn. lia. }
  split; [exact Hrej|].
  exact (proj1 (rejected_upload_creates_no_product
                  1700000000001 req (empty_db 0%N) Hrej)).
Defined.

(** The limits that the middleware enforces itself are answered with
    400 and the message of the limit. *)
Lemma oversized_upload_answers_400
    (now : Z) (db : DB) (t p d i r : option string) (name : string)
    (bytes at_ : Z) :
  name <> "" ->
  fileSize < bytes ->
  post_api_products now
    (mkProductRequest t p d i r
       [mkFile "images" name "image/png" bytes at_]) db
  = (db, json 400 (ErrorBody "File upload error: File too large")).
Proof.
  intros Hname Hbig. rewrite post_api_products_unfold.
  unfold Multer.array. cbn [req_files Multer.handle_parts fieldname].
  unfold Multer.named. cbn [originalname].
  apply String.eqb_neq in Hname. rewrite Hname. cbn [negb].
  cbn [String.eqb Ascii.eqb Bool.eqb negb orb Z.leb Z.compare].
  rewrite fileFilter_allowed by (right; now left).
  cbn [size]. apply Z.ltb_lt in Hbig. now rewrite Hbig.
Qed.

Lemma sixth_file_answers_400
    (now : Z) (db : DB) (t p d i r : option string) (f : File) :
  Multer.named f = true ->
  fieldname f = "images" ->
  Spec.allowed_type (mimetype f) ->
  size f <= fileSize ->
  exists detail,
    post_api_products now
      (mkProductRequest t p d i r [f; f; f; f; f; f]) db
    = (db, json 400 (ErrorBody ("File upload error: " +++ detail))).
Proof.
  intros Hnamed Hfield Htype Hsize.
  exists (error_message (MulterError LIMIT_UNEXPECTED_FILE)).
  rewrite post_api_products_unfold.
  unfold Multer.array. cbn [req_files Multer.handle_parts].
  rewrite Hnamed, Hfield, (fileFilter_allowed f Htype).
  apply Z.ltb_ge in Hsize. rewrite Hsize. reflexivity.
Qed.

(** C6. The code at a request with one attached text file (a part
    with a filename; one without is skipped): the file filter refuses
    it with a plain error, which the error middleware
    answers with 500 and a fixed message; the size and count limits,
    raised by the middleware itself, are answered with 400. *)
Theorem non_image_upload_answers_500
    (now : Z) (db : DB) (t p d i r : option string) (name : string)
    (bytes at_ : Z) :
  name <> "" ->
  post_api_products now
    (mkProductRequest t p d i r
       [mkFile "images" name "text/plain" bytes at_]) db
  = (db, json 500 (ErrorBody "Something went wrong!")).
Proof.
  intros Hname. rewrite post_api_products_unfold.
  unfold Multer.array. cbn [req_files Multer.handle_parts].
  unfold Multer.named. cbn [originalname].
  apply String.eqb_neq in Hname. rewrite Hname. reflexivity.
Qed.

Lemma non_image_upload_answers_500_witness :
  post_api_products 1700000000001
    (mkProductRequest (Some "Milk") (Some "3.50") None None None
       [mkFile "images" "notes.txt" "text/plain" 10 1700000000000])
    (empty_db 0%N)
  = (empty_db 0%N, json 500 (ErrorBody "Something went wrong!")).
Proof.
  apply (non_image_upload_answers_500 1700000000001 (empty_db 0%N)
           (Some "Milk") (Some "3.50") None None None "notes.txt"
           10 1700000000000).
  discriminate.
Defined.

(** *** Required fields of [POST /api/products] *)

Lemma missing_falsy (v : option string) :
  Spec.missing v -> JS.truthy v = false.
Proof. intros [H | H]; rewrite H; reflexivity. Qed.

Lemma missing_guard (req : ProductRequest) :
  Spec.missing (req_title req) \/ Spec.missing (req_price req) ->
  negb (JS.truthy (req_title req)) || negb (JS.truthy (req_price req)) = true.
Proof.
  intros [H | H]; rewrite (missing_falsy _ H); cbn [negb orb];
    [reflexivity | apply orb_true_r].
Qed.

(** C3, as the specification states it, fails when the upload is
    refused: the middleware answers before the handler looks at the
    body.  A request without a title that carries a 6 MB PNG gets the
    upload error, not the message about title and price. *)
Lemma missing_title_with_oversized_file :
  let big := mkFile "images" "big.png" "image/png" 6291456 1700000000000 in
  let req := mkProductRequest None (Some "3.50") None None None [big] in
  Spec.missing (req_title req) /\
  snd (post_api_products 1700000000001 req (empty_db 0%N))
    = json 400 (ErrorBody "File upload error: File too large") /\
  snd (post_api_products 1700000000001 req (empty_db 0%N))
    <> json 400 (ErrorBody "Title and price are required").
Proof.
  intros big req. split; [now left|].
  split; [reflexivity | discriminate].
Qed.

(** C3, amended.  A request that lacks its title or its price never
    persists a product; when its upload passes the middleware, the
    answer is 400 with the body [{error: "Title and price are
    required"}] and the database is left as it was. *)
Theorem missing_title_or_price_answers_400
    (now : Z) (req : ProductRequest) (db : DB) :
  Spec.missing (req_title req) \/ Spec.missing (req_price req) ->
  products (fst (post_api_products now req db)) = products db /\
  (forall stored,
      Multer.array "images" 5 (req_files req) = inr stored ->
      post_api_products now req db
        = (db, json 400 (ErrorBody "Title and price are required"))).
Proof.
  intros Hmiss. apply missing_guard in Hmiss.
  rewrite post_api_products_unfold.
  destruct (Multer.array "images" 5 (req_files req)) as [err|stored].
  - split; [reflexivity | discriminate].
  - rewrite Hmiss. split; [reflexivity | intros; reflexivity].
Qed.

Lemma missing_title_or_price_answers_400_witness :
  let img := mkFile "images" "cat.png" "image/png" 1000 1700000000000 in
  let req := mkProductRequest (Some "Milk") None None None None [img] in
  post_api_products 1700000000001 req (empty_db 0%N)
    = (empty_db 0%N, json 400 (ErrorBody "Title and price are required")).
Proof.
  intros img req.
  exact (proj2 (missing_title_or_price_answers_400
                  1700000000001 req (empty_db 0%N)
                  (or_intror (or_introl eq_refl)))
               [Multer.store img] eq_refl).
Defined.

(** *** Unknown products in [POST /api/cart] *)


(** C2. The code at a [productId] that is not an ObjectId, such as
    [abc]: [Product.findById] throws on the cast before the handler
    reaches the test that answers 404, and the catch answers 500.  The
    database is left as it was. *)
Theorem malformed_product_id_answers_500
    (now : Z) (q : option JS.value) (db : DB) :
  post_api_cart now (mkCartRequest (Some "abc") q) db
  = (db, json 500 (ErrorBody "Internal server error")).
Proof.
  rewrite post_api_cart_unfold. reflexivity.
Qed.



(** *** Listing products by recency *)

Lemma insert_desc_perm (p : Product) (l : list Product) :
  Permutation (p :: l) (insert_desc p l).
Proof.
  induction l as [|q r IH]; cbn [insert_desc]; [reflexivity|].
  destruct (createdAt q <=? createdAt p); [reflexivity|].
  rewrite perm_swap. now apply perm_skip.
Qed.

Lemma sort_createdAt_desc_perm (l : list Product) :
  Permutation l (sort_createdAt_desc l).
Proof.
  induction l as [|p r IH]; [reflexivity|].
  cbn [sort_createdAt_desc fold_right].
  rewrite <- insert_desc_perm. now apply perm_skip.
Qed.

Lemma insert_desc_sorted (p : Product) (l : list Product) :
  StronglySorted newest_first l ->
  StronglySorted newest_first (insert_desc p l).
Proof.
  induction 1 as [|q r Hsorted IH Hall]; cbn [insert_desc].
  - repeat constructor.
  - destruct (createdAt q <=? createdAt p) eqn:Hcmp.
    + apply Z.leb_le in Hcmp.
      constructor; [now constructor|].
      constructor; [exact Hcmp|].
      eapply Forall_impl; [|exact Hall].
      unfold newest_first. intros x Hx. lia.
    + apply Z.leb_gt in Hcmp.
      constructor; [exact IH|].
      eapply Permutation_Forall; [apply insert_desc_perm|].
      constructor; [unfold newest_first; lia | exact Hall].
Qed.

Lemma sort_createdAt_desc_sorted (l : list Product) :
  StronglySorted newest_first (sort_createdAt_desc l).
Proof.
  induction l as [|p r IH]; [constructor|].
  cbn [sort_createdAt_desc fold_right]. now apply insert_desc_sorted.
Qed.

(** C4. Whatever the products collection holds and in whatever order
    the products were inserted, [GET /api/products] answers 200 with all
    of them and nothing else, each product standing before every product
    created earlier than it; the database is left as it was. *)
Theorem get_api_products_newest_first (db : DB) :
  exists items,
    get_api_products db = (db, json 200 (ProductList items)) /\
    Permutation (products db) items /\
    StronglySorted newest_first items.
Proof.
  exists (sort_createdAt_desc (products db)).
  split; [reflexivity|].
  split; [apply sort_createdAt_desc_perm | apply sort_createdAt_desc_sorted].
Qed.

(** *** Identifiers stay fresh *)

Lemma below_succ (n : ObjectId) (ids : list ObjectId) :
  below n ids -> below (N.succ n) ids.
Proof.
  unfold below. intros H. eapply Forall_impl; [|exact H].
  intros i Hi. cbn in Hi. lia.
Qed.

Lemma below_not_in (n : ObjectId) (ids : list ObjectId) :
  below n ids -> ~ In n ids.
Proof.
  unfold below. intros H Hin.
  rewrite Forall_forall in H. specialize (H n Hin). cbn in H. lia.
Qed.

Lemma below_snoc (n : ObjectId) (ids : list ObjectId) :
  below n ids -> below (N.succ n) (ids ++ [n]).
Proof.
  intros H. apply Forall_app. split; [now apply below_succ|].
  constructor; [lia | constructor].
Qed.

Lemma NoDup_snoc (n : ObjectId) (ids : list ObjectId) :
  NoDup ids -> ~ In n ids -> NoDup (ids ++ [n]).
Proof.
  intros Hnd Hin.
  apply (Permutation_NoDup (l := n :: ids)).
  - apply Permutation_cons_append.
  - now constructor.
Qed.

Lemma updateOne_quantity_ids (id : ObjectId) (q : option JS.number)
    (l : list Cart) :
  map cart_id (updateOne_quantity id q l) = map cart_id l.
Proof.
  induction l as [|c r IH]; [reflexivity|].
  cbn [updateOne_quantity].
  destruct (cart_id c =? id)%N; cbn [map cart_id]; [reflexivity | now rewrite IH].
Qed.

Lemma updateOne_quantity_refs (id : ObjectId) (q : option JS.number)
    (l : list Cart) :
  map productId (updateOne_quantity id q l) = map productId l.
Proof.
  induction l as [|c r IH]; [reflexivity|].
  cbn [updateOne_quantity].
  destruct (cart_id c =? id)%N; cbn [map productId]; [reflexivity | now rewrite IH].
Qed.

Lemma well_formed_products (now : Z) (req : ProductRequest) (db : DB) :
  well_formed db -> well_formed (fst (post_api_products now req db)).
Proof.
  intros (Hp & Hc & Hnp & Hnc & Hone).
  rewrite post_api_products_unfold.
  destruct (Multer.array "images" 5 (req_files req)) as [err|stored];
    [repeat split; assumption|].
  destruct (negb (JS.truthy (req_title req)) || negb (JS.truthy (req_price req)));
    [repeat split; assumption|].
  cbv zeta.
  destruct (validateProduct _); unfold well_formed; cbn [fst products carts nextObjectId].
  - repeat split; try assumption; now apply below_succ.
  - rewrite map_app. cbn [map product_of product_id].
    repeat split.
    + now apply below_snoc.
    + now apply below_succ.
    + apply NoDup_snoc; [assumption | now apply below_not_in].
    + assumption.
    + assumption.
Qed.

Lemma find_matches_none (oid : ObjectId) (l : list Cart) :
  find (matches_product oid) l = None -> ~ In oid (map productId l).
Proof.
  intros Hfind Hin. apply in_map_iff in Hin as (c & Hc & Hin).
  pose proof (find_none _ _ Hfind c Hin) as Hno.
  unfold matches_product in Hno. rewrite Hc, N.eqb_refl in Hno. discriminate.
Qed.

Lemma well_formed_cart (now : Z) (req : CartRequest) (db : DB) :
  well_formed db -> well_formed (fst (post_api_cart now req db)).
Proof.
  intros (Hp & Hc & Hnp & Hnc & Hone).
  rewrite post_api_cart_unfold.
  destruct (req_productId req) as [pid|]; [|repeat split; assumption].
  destruct (String.eqb pid ""); [repeat split; assumption|].
  destruct (castObjectId pid) as [oid|]; [|repeat split; assumption].
  destruct (find (has_id oid) (products db)); [|repeat split; assumption].
  destruct (find (matches_product oid) (carts db)) as [item|] eqn:Hfind.
  - destruct (next_quantity _ _) as [q|]; [|repeat split; assumption].
    unfold well_formed; cbn [fst products carts nextObjectId].
    rewrite updateOne_quantity_ids, updateOne_quantity_refs.
    repeat split; assumption.
  - destruct (first_quantity _) as [q|];
      unfold well_formed; cbn [fst products carts nextObjectId].
    + rewrite !map_app. cbn [map new_line cart_id productId].
      repeat split.
      * now apply below_succ.
      * now apply below_snoc.
      * assumption.
      * apply NoDup_snoc; [assumption | now apply below_not_in].
      * apply NoDup_snoc; [assumption | now apply find_matches_none].
    + repeat split; try assumption; now apply below_succ.
Qed.

Lemma well_formed_serve (r : Request) (db : DB) :
  well_formed db -> well_formed (fst (serve r db)).
Proof.
  destruct r as [now req | now req | |]; cbn [serve].
  - apply well_formed_products.
  - apply well_formed_cart.
  - intros H; exact H.
  - intros H; exact H.
Qed.

Lemma reachable_well_formed (db : DB) :
  reachable db -> well_formed db.
Proof.
  induction 1 as [seed | db r _ IH].
  - repeat split; constructor.
  - now apply well_formed_serve.
Qed.

Lemma reachable_run (rs : list Request) :
  forall db, reachable db -> reachable (run rs db).
Proof.
  induction rs as [|r rest IH]; intros db H; cbn [run]; [exact H|].
  apply IH. now constructor.
Qed.

(** *** Creating a product *)

Lemma truthy_or_else_str (v : option string) :
  JS.truthy v = true -> String.eqb (JS.or_else_str v "") "" = false.
Proof.
  destruct v as [s|]; cbn [JS.truthy JS.or_else_str]; [|discriminate].
  destruct (String.eqb s "") eqn:E; [discriminate | intros _; exact E].
Qed.

Lemma valid_payload_validates (db : DB) (now : Z) (req : ProductRequest)
    (stored : list StoredFile) :
  Spec.valid_payload req ->
  validateProduct (product_of db now req stored) = None.
Proof.
  intros (_ & Htitle & _ & Hprice & Hdisc & Htype & Hrat & Hrange).
  unfold validateProduct, product_of.
  cbn [title price discount itemType rating].
  rewrite (truthy_or_else_str _ Htitle), Hprice.
  assert (Hd : JS.isNaN (if JS.truthy (req_discount req)
                         then JS.parseFloat_field (req_discount req)
                         else JS.zero) = false).
  { destruct (JS.truthy (req_discount req)) eqn:E; [now apply Hdisc | reflexivity]. }
  rewrite Hd.
  assert (Ht : existsb (String.eqb (JS.or_else_str (req_itemType req) "regular"))
                 itemType_enum = true).
  { apply existsb_exists. eexists. split; [exact Htype | apply String.eqb_refl]. }
  rewrite Ht. cbn [negb].
  destruct (JS.truthy (req_rating req)) eqn:E.
  - rewrite (Hrat E).
    destruct (Hrange eq_refl) as [Hlo Hhi]. now rewrite Hlo, Hhi.
  - reflexivity.
Qed.

(** C5. For a reachable database and a valid payload, the request
    answers 201 with a product that is appended to the collection, whose
    identifier is carried by no product stored before, whose [createdAt]
    is the clock reading of the request, and whose optional fields take
    their defaults when omitted: discount 0, item type [regular],
    rating 0, no image. *)
Theorem created_product_fresh_with_defaults
    (now : Z) (req : ProductRequest) (db : DB) :
  reachable db ->
  Spec.valid_payload req ->
  exists p,
    post_api_products now req db
      = (mkDB (products db ++ [p]) (carts db) (N.succ (nextObjectId db)),
         json 201 (ProductCreated "Product created successfully" p)) /\
    ~ In (product_id p) (map product_id (products db)) /\
    createdAt p = now /\
    (req_discount req = None -> discount p = JS.Finite 0) /\
    (req_itemType req = None -> itemType p = "regular") /\
    (req_rating req = None -> rating p = JS.Finite 0) /\
    (req_files req = [] -> images p = []).
Proof.
  intros Hreach Hvalid.
  pose proof (reachable_well_formed db Hreach) as (Hbelow & _).
  pose proof Hvalid as (Hup & Htitle & Hprice & _).
  exists (product_of db now req
            (map Multer.store (Spec.attached (req_files req)))).
  split.
  - rewrite post_api_products_unfold, (accepted_upload_stored _ Hup).
    rewrite Htitle, Hprice. cbn [negb orb]. cbv zeta.
    now rewrite (valid_payload_validates db now req _ Hvalid).
  - cbn [product_of product_id createdAt discount itemType rating images].
    split; [now apply below_not_in|].
    split; [reflexivity|].
    repeat split.
    + intros ->. reflexivity.
    + intros ->. reflexivity.
    + intros ->. reflexivity.
    + intros ->. reflexivity.
Qed.

Lemma created_product_fresh_with_defaults_witness :
  let req := mkProductRequest (Some "Milk") (Some "3.50") None None None [] in
  exists p,
    post_api_products 1700000000001 req (empty_db 7%N)
      = (mkDB [p] [] 8%N,
         json 201 (ProductCreated "Product created successfully" p)) /\
    discount p = JS.Finite 0 /\ itemType p = "regular" /\
    rating p = JS.Finite 0 /\ images p = [].
Proof.
  intros req.
  assert (Hvalid : Spec.valid_payload req).
  { repeat split; try reflexivity; try discriminate.
    - cbn. lia.
    - constructor.
    - cbn. right. right. now left. }
  destruct (created_product_fresh_with_defaults
              1700000000001 req (empty_db 7%N) (reachable_start 7%N) Hvalid)
    as (p & Heq & _ & _ & Hd & Ht & Hr & Hi).
  exists p. split; [exact Heq|].
  repeat split; [apply Hd | apply Ht | apply Hr | apply Hi]; reflexivity.
Defined.

(** *** Numeric fields given as text *)

Lemma validateProduct_NaN (p : Product) :
  JS.isNaN (price p) = true \/
  JS.isNaN (discount p) = true \/
  JS.isNaN (rating p) = true ->
  exists path, validateProduct p = Some path.
Proof.
  intros H. unfold validateProduct.
  destruct (String.eqb (title p) ""); [eexists; reflexivity|].
  destruct (JS.isNaN (price p)); [eexists; reflexivity|].
  destruct (JS.isNaN (discount p)); [eexists; reflexivity|].
  destruct (negb (existsb (String.eqb (itemType p)) itemType_enum));
    [eexists; reflexivity|].
  destruct (JS.isNaN (rating p)); [eexists; reflexivity|].
  destruct H as [H | [H | H]]; discriminate.
Qed.

Lemma round64_number (q : Q) : JS.isNaN (JS.round64 q) = false.
Proof.
  assert (Hpos : forall n d, JS.isNaN (JS.round_positive n d) = false).
  { intros n d. unfold JS.round_positive.
    destruct (_ && _); reflexivity. }
  unfold JS.round64. destruct (Qnum q) as [|n|n]; [reflexivity | apply Hpos|].
  specialize (Hpos (Z.pos n) (Z.pos (Qden q))).
  destruct (JS.round_positive _ _); [discriminate | reflexivity..].
Qed.

Lemma decimal_text_untrimmed (c : ascii) (r : string) :
  Spec.decimal_text (String c r) = true ->
  JS.trim_start (String c r) = String c r.
Proof.
  destruct c as [[] [] [] [] [] [] [] []]; intros H;
    try (cbn in H; discriminate H); reflexivity.
Qed.

(** Text that is a decimal number is read as a number by [parseFloat];
    so text in which [parseFloat] finds no number is not a decimal
    number. *)
Lemma decimal_text_parses (s : string) :
  Spec.decimal_text s = true -> JS.isNaN (JS.parseFloat s) = false.
Proof.
  intros Hdec.
  assert (Htrim : JS.trim_start s = s).
  { destruct s as [|c r]; [reflexivity|]. now apply decimal_text_untrimmed. }
  unfold JS.parseFloat. rewrite Htrim.
  unfold Spec.decimal_text in Hdec.
  destruct (JS.split_sign s) as [neg u].
  destruct (prefix "Infinity" u); [reflexivity|].
  destruct (JS.span_digits u) as [ip r1].
  destruct (JS.fraction r1) as [fp r2].
  destruct ip, fp; [discriminate | apply round64_number..].
Qed.

(** C9, as the specification states it, fails for text that starts with
    a number: [12abc] is not a decimal number, yet [parseFloat] reads
    12 and the product is created with that price.  It fails for an
    empty discount too, which is present, is no number, and counts as
    omitted. *)
Lemma price_with_trailing_text_is_accepted :
  let req := mkProductRequest (Some "Milk") (Some "12abc") None None None [] in
  let req' := mkProductRequest (Some "Milk") (Some "3") (Some "") None None [] in
  Spec.decimal_text "12abc" = false /\
  (exists p,
    post_api_products 1700000000001 req (empty_db 0%N)
      = (mkDB [p] [] 1%N,
         json 201 (ProductCreated "Product created successfully" p)) /\
    price p = JS.Finite 12) /\
  Spec.decimal_text "" = false /\
  status (snd (post_api_products 1700000000001 req' (empty_db 0%N))) = 201.
Proof.
  intros req req'. split; [reflexivity|]. split.
  - eexists. split; vm_compute; reflexivity.
  - split; vm_compute; reflexivity.
Qed.

(** C9, amended.  A request whose price is present but holds no
    leading decimal number, or whose non-empty discount or rating holds
    none, fails: the answer is an error response, 400 or 500, and the
    products collection is left as it was. *)
Theorem non_numeric_field_is_refused
    (now : Z) (req : ProductRequest) (db : DB) :
  (exists s, req_price req = Some s /\ JS.isNaN (JS.parseFloat s) = true) \/
  (JS.truthy (req_discount req) = true /\
   JS.isNaN (JS.parseFloat_field (req_discount req)) = true) \/
  (JS.truthy (req_rating req) = true /\
   JS.isNaN (JS.parseFloat_field (req_rating req)) = true) ->
  (status (snd (post_api_products now req db)) = 400 \/
   status (snd (post_api_products now req db)) = 500) /\
  products (fst (post_api_products now req db)) = products db.
Proof.
  intros Hnan.
  rewrite post_api_products_unfold.
  destruct (Multer.array "images" 5 (req_files req)) as [err|stored].
  { split; [destruct err; [now left | now right] | reflexivity]. }
  destruct (negb (JS.truthy (req_title req)) || negb (JS.truthy (req_price req))).
  { split; [now left | reflexivity]. }
  cbv zeta.
  destruct (validateProduct_NaN (product_of db now req stored)) as [path Hpath].
  - unfold product_of. cbn [price discount rating].
    destruct Hnan as [(s & Hs & H) | [[Ht H] | [Ht H]]].
    + left. now rewrite Hs.
    + right. left. now rewrite Ht.
    + right. right. now rewrite Ht.
  - rewrite Hpath. split; [now right | reflexivity].
Qed.

Lemma non_numeric_field_is_refused_witness :
  let req := mkProductRequest (Some "Milk") (Some "abc") None None None [] in
  (status (snd (post_api_products 1700000000001 req (empty_db 0%N))) = 400 \/
   status (snd (post_api_products 1700000000001 req (empty_db 0%N))) = 500) /\
  products (fst (post_api_products 1700000000001 req (empty_db 0%N))) = [].
Proof.
  intros req.
  apply (non_numeric_field_is_refused 1700000000001 req (empty_db 0%N)).
  left. exists "abc". split; reflexivity.
Defined.

(** *** Quantities in the cart *)

Lemma or_else_positive (q : option Z) :
  match q with Some n => 0 <= n | None => True end ->
  0 < JS.or_else q 1.
Proof.
  destruct q as [n|]; cbn [JS.or_else]; [|lia].
  intros Hn. destruct (n =? 0) eqn:E; [lia|].
  apply Z.eqb_neq in E. lia.
Qed.

Lemma or_else_magnitude (z : Z) : Z.abs z <= Z.abs (JS.or_else (Some z) 1).
Proof.
  cbn [JS.or_else]. destruct (z =? 0) eqn:E; [|lia].
  apply Z.eqb_eq in E. subst z. cbn. lia.
Qed.

Lemma truthy_int (z : Z) :
  JS.truthy_value (JS.VNum (JS.Finite (inject_Z z))) = negb (z =? 0).
Proof.
  cbn [JS.truthy_value]. unfold Qeq_bool, inject_Z. cbn [Qnum Qden].
  rewrite Z.mul_1_r. now destruct z.
Qed.

(** [quantity || 1] on a JSON integer that is a double, or on no
    quantity. *)
Lemma or_value_int (q : option Z) :
  (forall z, q = Some z -> - safe <= z <= safe) ->
  JS.or_value (option_map JS.int q) (JS.VNum (JS.Finite 1))
  = JS.VNum (JS.Finite (inject_Z (JS.or_else q 1))).
Proof.
  destruct q as [z|]; cbn [option_map JS.or_value JS.or_else]; [|reflexivity].
  intros H. unfold JS.int. rewrite of_Z_exact by auto.
  rewrite truthy_int. now destruct (z =? 0).
Qed.

Lemma first_quantity_int (q : option Z) :
  (forall z, q = Some z -> - safe <= z <= safe) ->
  first_quantity (option_map JS.int q) = Some (units (JS.or_else q 1)).
Proof.
  intros H. unfold first_quantity. now rewrite or_value_int.
Qed.

Lemma next_quantity_int (z : Z) (q : option Z) :
  (forall x, q = Some x -> - safe <= x <= safe) ->
  - safe <= z + JS.or_else q 1 <= safe ->
  next_quantity (units z) (option_map JS.int q)
  = Some (units (z + JS.or_else q 1)).
Proof.
  intros Hq Hsum. unfold next_quantity, units.
  rewrite or_value_int by assumption.
  cbn [JS.plus]. now rewrite add_exact.
Qed.

Lemma weight_units (c : Cart) (z : Z) : quantity c = units z -> weight c = z.
Proof.
  unfold weight, units. intros ->. apply Qfloor_Z.
Qed.

Lemma positive_weight (l : list Cart) :
  Forall positive_integer l -> Forall (fun c => 0 < weight c) l.
Proof.
  intros H. eapply Forall_impl; [|exact H].
  intros c (z & Hz & Hq). now rewrite (weight_units c z Hq).
Qed.

Lemma weight_le_sum (item : Cart) (l : list Cart) :
  Forall (fun c => 0 < weight c) l -> In item l ->
  weight item <= sum (map weight l).
Proof.
  unfold sum. induction 1 as [|c r Hc Hr IH]; intros Hin; [contradiction|].
  cbn [map fold_right].
  assert (0 <= fold_right Z.add 0 (map weight r)).
  { clear IH Hin. induction Hr as [|x xs Hx _ IHx]; cbn [map fold_right]; lia. }
  destruct Hin as [<- | Hin]; [lia|]. specialize (IH Hin). lia.
Qed.

Lemma updateOne_quantity_positive (id : ObjectId) (q : option JS.number)
    (l : list Cart) :
  (exists z, 0 < z /\ q = units z) ->
  Forall positive_integer l ->
  Forall positive_integer (updateOne_quantity id q l).
Proof.
  intros Hq. induction 1 as [|c r Hc Hr IH]; cbn [updateOne_quantity];
    [constructor|].
  destruct (cart_id c =? id)%N; constructor; assumption.
Qed.

Lemma NoDup_map_inj {A B : Type} (f : A -> B) (l : list A) (a b : A) :
  NoDup (map f l) -> In a l -> In b l -> f a = f b -> a = b.
Proof.
  induction l as [|x r IH]; intros Hnd Ha Hb Hf; [contradiction|].
  cbn [map] in Hnd. inversion Hnd as [|? ? Hnot Hrest]; subst.
  destruct Ha as [<- | Ha], Hb as [<- | Hb].
  - reflexivity.
  - exfalso. apply Hnot. rewrite Hf. now apply in_map.
  - exfalso. apply Hnot. rewrite <- Hf. now apply in_map.
  - now apply IH.
Qed.

Lemma sum_weight_updateOne (item : Cart) (q : option JS.number) (l : list Cart) :
  NoDup (map cart_id l) ->
  In item l ->
  sum (map weight (updateOne_quantity (cart_id item) q l))
  = sum (map weight l) - weight item + weight (bumped item q).
Proof.
  induction l as [|c r IH]; intros Hnd Hin; [contradiction|].
  cbn [updateOne_quantity].
  destruct (N.eqb_spec (cart_id c) (cart_id item)) as [Hid | Hid].
  - assert (c = item).
    { apply (NoDup_map_inj cart_id (c :: r));
        [assumption | now left | assumption | exact Hid]. }
    subst c. unfold sum, bumped, weight. cbn [map fold_right quantity]. lia.
  - destruct Hin as [-> | Hin]; [contradiction|].
    cbn [map] in Hnd. inversion Hnd as [|? ? _ Hrest]; subst.
    specialize (IH Hrest Hin).
    unfold sum in *. cbn [map fold_right]. lia.
Qed.

Lemma sum_app (l l' : list Z) : sum (l ++ l') = sum l + sum l'.
Proof.
  unfold sum. induction l as [|x r IH]; cbn [app fold_right]; lia.
Qed.

Lemma of_Z_counting (z : Z) :
  0 < z -> counting (Some (JS.of_Z z)).
Proof.
  intros Hz. unfold JS.of_Z, JS.round64. cbn [inject_Z Qnum Qden].
  destruct z as [|n|n]; try lia.
  destruct (round_positive_integer (Z.pos n) Hz) as [-> | (k & Hk & ->)];
    [now right | left; now exists k].
Qed.

Lemma counting_truthy (n : JS.number) :
  counting (Some n) -> JS.truthy_value (JS.VNum n) = true.
Proof.
  intros [(z & Hz & Hq) | Hq]; injection Hq as ->; [|reflexivity].
  rewrite truthy_int. destruct (Z.eqb_spec z 0); [lia | reflexivity].
Qed.

Lemma counting_number (n : JS.number) :
  counting (Some n) -> JS.isNaN n = false.
Proof.
  intros [(z & _ & Hq) | Hq]; injection Hq as ->; reflexivity.
Qed.

(** [quantity || 1] on a JSON integer from 0 up, or on no quantity. *)
Lemma or_value_counting (q : option Z) :
  match q with Some n => 0 <= n | None => True end ->
  exists n,
    JS.or_value (option_map JS.int q) (JS.VNum (JS.Finite 1)) = JS.VNum n /\
    counting (Some n).
Proof.
  assert (Hone : counting (Some (JS.Finite 1))).
  { left. exists 1. split; [lia | reflexivity]. }
  destruct q as [z|]; cbn [option_map JS.or_value]; [|now eexists].
  intros Hz. unfold JS.int.
  destruct (Z.eq_dec z 0) as [-> | Hnz]; [now eexists|].
  assert (Hc : counting (Some (JS.of_Z z))) by (apply of_Z_counting; lia).
  rewrite (counting_truthy _ Hc). now eexists.
Qed.

Lemma add_counting (a b : JS.number) :
  counting (Some a) -> counting (Some b) -> counting (Some (JS.add a b)).
Proof.
  intros [(x & Hx & Ha) | Ha] [(y & Hy & Hb) | Hb];
    injection Ha as ->; injection Hb as ->; cbn [JS.add Bool.eqb];
    try (now right).
  replace (inject_Z x + inject_Z y)%Q with (inject_Z (x + y)).
  - apply of_Z_counting. lia.
  - unfold Qplus, inject_Z. cbn [Qnum Qden]. now rewrite !Z.mul_1_r.
Qed.

Lemma updateOne_quantity_counting (id : ObjectId) (q : option JS.number)
    (l : list Cart) :
  counting q ->
  Forall positive_or_infinite l ->
  Forall positive_or_infinite (updateOne_quantity id q l).
Proof.
  intros Hq. induction 1 as [|c r Hc Hr IH]; cbn [updateOne_quantity];
    [constructor|].
  destruct (cart_id c =? id)%N; constructor; assumption.
Qed.

(** A request with no negative quantity keeps every line at a positive
    integer or [Infinity]. *)
Lemma serve_counting (c : Spec.Call) (db : DB) :
  Spec.no_negative_quantity c ->
  Forall positive_or_infinite (carts db) ->
  Forall positive_or_infinite (carts (fst (serve (Spec.request_of c) db))).
Proof.
  intros Hq Hall.
  destruct c as [now req | now pid q | |]; cbn [Spec.request_of serve];
    [now rewrite post_api_products_carts | | exact Hall | exact Hall].
  cbn [Spec.no_negative_quantity] in Hq.
  assert (Hq' : match q with Some n => 0 <= n | None => True end).
  { destruct q; [exact Hq | exact I]. }
  destruct (or_value_counting q Hq') as (n & Hn & Hcount).
  rewrite post_api_cart_unfold. cbn [req_productId req_quantity].
  destruct pid as [pid|]; [|exact Hall].
  destruct (String.eqb pid ""); [exact Hall|].
  destruct (castObjectId pid) as [oid|]; [|exact Hall].
  destruct (find (has_id oid) (products db)); [|exact Hall].
  destruct (find (matches_product oid) (carts db)) as [item|] eqn:Hfind.
  - apply find_some in Hfind as [Hin _].
    pose proof Hall as Hitem. rewrite Forall_forall in Hitem.
    specialize (Hitem item Hin). unfold positive_or_infinite in Hitem.
    unfold next_quantity. rewrite Hn.
    destruct (quantity item) as [old|] eqn:Hold;
      [|destruct Hitem as [(z & _ & Hz) | Hz]; discriminate].
    cbn [JS.plus castNumber].
    pose proof (add_counting old n Hitem Hcount) as Hsum.
    rewrite (counting_number _ Hsum). cbn [fst carts].
    now apply updateOne_quantity_counting.
  - unfold first_quantity. rewrite Hn. cbn [castNumber].
    rewrite (counting_number _ Hcount). cbn [fst carts].
    apply Forall_app. split; [exact Hall|].
    constructor; [exact Hcount | constructor].
Qed.

Lemma serve_within_budget (c : Spec.Call) (db : DB) (budget : Z) :
  within_budget db budget ->
  Spec.no_negative_quantity c ->
  budget + Spec.asked c <= safe ->
  within_budget (fst (serve (Spec.request_of c) db)) (budget + Spec.asked c).
Proof.
  intros (Hwf & Hpos & Hsum) Hq Hsafe.
  assert (Hkeep : forall db',
             well_formed db' -> carts db' = carts db -> 0 <= Spec.asked c ->
             within_budget db' (budget + Spec.asked c)).
  { intros db' Hwf' Hsame Hask. split; [exact Hwf'|].
    rewrite Hsame. split; [exact Hpos | lia]. }
  destruct c as [now req | now pid q | |]; cbn [Spec.request_of serve Spec.asked] in *.
  - apply Hkeep; [now apply well_formed_products
                 | apply post_api_products_carts | lia].
  - pose proof (well_formed_cart now (mkCartRequest pid (option_map JS.int q))
                  db Hwf) as Hwf'.
    pose proof (or_else_positive q Hq) as He.
    assert (Hweights : 0 <= sum (map weight (carts db))).
    { pose proof (positive_weight _ Hpos) as Hw. unfold sum.
      clear -Hw. induction Hw; cbn [map fold_right]; lia. }
    assert (Hbound : forall z, q = Some z -> - safe <= z <= safe).
    { intros z ->. cbn [Spec.no_negative_quantity] in Hq.
      pose proof (or_else_magnitude z). unfold safe in *. lia. }
    revert Hwf'. rewrite post_api_cart_unfold.
    cbn [req_productId req_quantity].
    destruct pid as [pid|]; [|intros Hwf'; now apply Hkeep; [| |lia]].
    destruct (String.eqb pid ""); [intros Hwf'; now apply Hkeep; [| |lia]|].
    destruct (castObjectId pid) as [oid|];
      [|intros Hwf'; now apply Hkeep; [| |lia]].
    destruct (find (has_id oid) (products db));
      [|intros Hwf'; now apply Hkeep; [| |lia]].
    destruct (find (matches_product oid) (carts db)) as [item|] eqn:Hfind.
    + apply find_some in Hfind as [Hin _].
      pose proof Hpos as Hall. rewrite Forall_forall in Hall.
      destruct (Hall item Hin) as (z & Hz & Hitem).
      pose proof (weight_le_sum item _ (positive_weight _ Hpos) Hin) as Hle.
      rewrite (weight_units item z Hitem) in Hle.
      rewrite Hitem, next_quantity_int; [|exact Hbound | unfold safe in *; lia].
      intros Hwf'. unfold within_budget. cbn [fst carts] in *.
      split; [exact Hwf'|]. split.
      * apply updateOne_quantity_positive; [|exact Hpos].
        exists (z + JS.or_else q 1). split; [lia | reflexivity].
      * destruct Hwf as (_ & _ & _ & Hnd & _).
        rewrite (sum_weight_updateOne item _ _ Hnd Hin).
        rewrite (weight_units item z Hitem).
        rewrite (weight_units (bumped item (units (z + JS.or_else q 1)))
                   (z + JS.or_else q 1) eq_refl).
        lia.
    + rewrite first_quantity_int by exact Hbound.
      intros Hwf'. unfold within_budget. cbn [fst carts] in *.
      split; [exact Hwf'|]. split.
      * apply Forall_app. split; [exact Hpos|].
        constructor; [|constructor].
        exists (JS.or_else q 1). split; [lia | reflexivity].
      * rewrite map_app, sum_app. unfold sum at 2. cbn [map fold_right].
        rewrite (weight_units (new_line db oid now (units (JS.or_else q 1)))
                   (JS.or_else q 1) eq_refl).
        lia.
  - apply Hkeep; [exact Hwf | reflexivity | lia].
  - apply Hkeep; [exact Hwf | reflexivity | lia].
Qed.

(** C8, as the specification states it, fails for a negative quantity:
    it is truthy, so it is stored as it came, and the line holds no
    positive integer.  It fails as well for a fraction, for the text
    [0], which casts to the number 0, and for two quantities of 1e308,
    whose sum is [Infinity].  In each case a product is created and then
    added to the cart. *)
Lemma negative_quantity_is_stored :
  let after qs :=
    carts (run (add_requests milk_id
                  (map (fun q => (1700000000001, Some q)) qs)) shop) in
  map quantity (after [JS.int (-5)]) = [units (-5)] /\
  ~ Forall positive_integer (after [JS.int (-5)]) /\
  map quantity (after [JS.VNum (JS.round64 (1 # 2))])
    = [Some (JS.Finite (1 # 2))] /\
  map quantity (after [JS.VStr "0"]) = [units 0] /\
  map quantity (after [JS.int (10 ^ 308); JS.int (10 ^ 308)])
    = [Some (JS.Infinity false)].
Proof.
  intros after.
  assert (Hstored : map quantity (after [JS.int (-5)]) = [units (-5)]).
  { vm_compute. reflexivity. }
  split; [exact Hstored|]. split.
  - intros Hall. apply (Forall_map quantity (fun q => exists z, 0 < z /\ q = units z))
      in Hall.
    rewrite Hstored in Hall. inversion Hall as [|? ? (z & Hz & Heq) _]; subst.
    unfold units in Heq. injection Heq as Heq. lia.
  - repeat split; vm_compute; reflexivity.
Qed.

(** C8, amended.  After any sequence of requests in which every
    add-to-cart quantity is omitted or a JSON integer from 0 up (an
    omitted or zero quantity counting as 1), every stored cart line
    holds a positive integer or [Infinity]; and it holds a positive
    integer when those quantities add up to 2^53 at most. *)
Theorem quantities_stay_positive (calls : list Spec.Call) (seed : ObjectId) :
  Forall Spec.no_negative_quantity calls ->
  Forall positive_or_infinite
    (carts (run (map Spec.request_of calls) (empty_db seed))) /\
  (sum (map Spec.asked calls) <= safe ->
   Forall positive_integer
     (carts (run (map Spec.request_of calls) (empty_db seed)))).
Proof.
  intros Hcalls. split.
  { assert (Hgen : forall db,
               Forall positive_or_infinite (carts db) ->
               Forall positive_or_infinite
                 (carts (run (map Spec.request_of calls) db))).
    { induction Hcalls as [|c rest Hc Hrest IH]; intros db Hdb; [exact Hdb|].
      cbn [map run]. apply IH. now apply serve_counting. }
    apply Hgen. constructor. }
  intros Hsafe.
  assert (Hasked : forall c, Spec.no_negative_quantity c -> 0 <= Spec.asked c).
  { intros [now req | now pid q | |] Hc; cbn [Spec.asked]; try lia.
    pose proof (or_else_positive q Hc). lia. }
  assert (Hgen : forall db budget,
             within_budget db budget ->
             budget + sum (map Spec.asked calls) <= safe ->
             exists budget',
               within_budget (run (map Spec.request_of calls) db) budget').
  { induction Hcalls as [|c rest Hc Hrest IH]; intros db budget Hdb Hlim.
    - now exists budget.
    - cbn [map run]. unfold sum in Hlim, Hsafe. cbn [map fold_right] in Hlim, Hsafe.
      assert (0 <= fold_right Z.add 0 (map Spec.asked rest)).
      { clear -Hrest Hasked. induction Hrest as [|x xs Hx _ IHx];
          cbn [map fold_right]; [lia|]. specialize (Hasked x Hx). lia. }
      apply (IH ltac:(unfold sum; specialize (Hasked c Hc); lia)
                (fst (serve (Spec.request_of c) db)) (budget + Spec.asked c)).
      + apply serve_within_budget; [assumption | assumption|].
        specialize (Hasked c Hc). lia.
      + unfold sum. lia. }
  destruct (Hgen (empty_db seed) 0) as (budget' & _ & Hpos & _).
  - split; [repeat split; constructor|]. split; [constructor | cbn; lia].
  - lia.
  - exact Hpos.
Qed.

Lemma quantities_stay_positive_witness :
  let calls :=
    [Spec.Create 1700000000000 milk;
     Spec.Add 1700000000001 (Some milk_id) (Some 0);
     Spec.Add 1700000000002 (Some milk_id) None] in
  Forall positive_integer
    (carts (run (map Spec.request_of calls) (empty_db 0%N))).
Proof.
  intros calls.
  refine (proj2 (quantities_stay_positive calls 0%N _) _).
  - repeat constructor; cbn; lia.
  - unfold safe. cbn. lia.
Defined.

(** *** One line per product *)

Lemma set_quantity_other (id : ObjectId) (q : option JS.number)
    (l : list Cart) :
  ~ In id (map cart_id l) -> map (set_quantity id q) l = l.
Proof.
  induction l as [|c r IH]; intros Hnot; [reflexivity|].
  cbn [map]. unfold set_quantity at 1.
  destruct (N.eqb_spec (cart_id c) id) as [E|_].
  - exfalso. apply Hnot. now left.
  - f_equal. apply IH. intros H. apply Hnot. now right.
Qed.

(** With distinct identifiers, writing the first match is writing every
    match. *)
Lemma updateOne_quantity_map (id : ObjectId) (q : option JS.number)
    (l : list Cart) :
  NoDup (map cart_id l) ->
  updateOne_quantity id q l = map (set_quantity id q) l.
Proof.
  induction l as [|c r IH]; intros Hnd; [reflexivity|].
  cbn [map] in Hnd. inversion Hnd as [|? ? Hnot Hrest]; subst.
  cbn [updateOne_quantity map]. unfold set_quantity at 1.
  destruct (N.eqb_spec (cart_id c) id) as [E|_].
  - subst id. now rewrite set_quantity_other.
  - f_equal. now apply IH.
Qed.

Lemma filter_set_quantity (oid id : ObjectId) (q : option JS.number)
    (l : list Cart) :
  filter (matches_product oid) (map (set_quantity id q) l)
  = map (set_quantity id q) (filter (matches_product oid) l).
Proof.
  induction l as [|c r IH]; [reflexivity|].
  cbn [map filter].
  assert (Hsame : matches_product oid (set_quantity id q c)
                  = matches_product oid c).
  { unfold set_quantity. destruct (cart_id c =? id)%N; reflexivity. }
  rewrite Hsame.
  destruct (matches_product oid c); cbn [map]; now rewrite IH.
Qed.

Lemma find_of_filter (oid : ObjectId) (l : list Cart) :
  find (matches_product oid) l = hd_error (filter (matches_product oid) l).
Proof.
  induction l as [|c r IH]; [reflexivity|].
  cbn [find filter]. destruct (matches_product oid c); [reflexivity | exact IH].
Qed.

Lemma castObjectId_nonempty (pid : string) (oid : ObjectId) :
  castObjectId pid = Some oid -> String.eqb pid "" = false.
Proof.
  destruct pid; [discriminate | reflexivity].
Qed.

Lemma find_has_id_some (db : DB) (oid : ObjectId) :
  (exists p, In p (products db) /\ product_id p = oid) ->
  exists p, find (has_id oid) (products db) = Some p.
Proof.
  intros (p & Hin & Hid).
  destruct (find (has_id oid) (products db)) as [p'|] eqn:Hfind;
    [now exists p'|].
  pose proof (find_none _ _ Hfind p Hin) as Hno.
  unfold has_id in Hno. rewrite Hid, N.eqb_refl in Hno. discriminate.
Qed.

(** The first add for a product creates its line. *)
Lemma add_creates_line (now : Z) (pid : string) (oid : ObjectId)
    (v : option JS.value) (q : option JS.number) (db : DB) :
  castObjectId pid = Some oid ->
  (exists p, In p (products db) /\ product_id p = oid) ->
  lines_for oid db = [] ->
  first_quantity v = Some q ->
  let out := post_api_cart now (mkCartRequest (Some pid) v) db in
  snd out = json 201 (CartAdded "Product added to cart successfully"
                        (new_line db oid now q)) /\
  lines_for oid (fst out) = [new_line db oid now q].
Proof.
  intros Hcast Hprod Hnone Hq out. subst out.
  rewrite post_api_cart_unfold. cbn [req_productId req_quantity].
  rewrite (castObjectId_nonempty _ _ Hcast), Hcast.
  destruct (find_has_id_some db oid Hprod) as [p ->].
  rewrite find_of_filter. fold (lines_for oid db). rewrite Hnone, Hq.
  cbn [hd_error fst snd]. split; [reflexivity|].
  unfold lines_for in *. cbn [carts].
  rewrite filter_app, Hnone. cbn [filter app new_line].
  unfold matches_product. cbn [productId]. now rewrite N.eqb_refl.
Qed.

(** A later add rewrites the quantity of that line. *)
Lemma add_bumps_line (now : Z) (pid : string) (oid : ObjectId)
    (v : option JS.value) (q : option JS.number) (db : DB) (item : Cart) :
  well_formed db ->
  castObjectId pid = Some oid ->
  (exists p, In p (products db) /\ product_id p = oid) ->
  lines_for oid db = [item] ->
  next_quantity (quantity item) v = Some q ->
  let out := post_api_cart now (mkCartRequest (Some pid) v) db in
  snd out = json 201 (CartAdded "Product added to cart successfully"
                        (bumped item q)) /\
  lines_for oid (fst out) = [bumped item q].
Proof.
  intros (_ & _ & _ & Hnd & _) Hcast Hprod Hone Hq out. subst out.
  rewrite post_api_cart_unfold. cbn [req_productId req_quantity].
  rewrite (castObjectId_nonempty _ _ Hcast), Hcast.
  destruct (find_has_id_some db oid Hprod) as [p ->].
  rewrite find_of_filter. fold (lines_for oid db). rewrite Hone.
  cbn [hd_error]. rewrite Hq. cbn [fst snd]. split; [reflexivity|].
  unfold lines_for in *. cbn [carts].
  rewrite (updateOne_quantity_map _ _ _ Hnd), filter_set_quantity, Hone.
  cbn [map]. unfold set_quantity, bumped. now rewrite N.eqb_refl.
Qed.

Lemma product_stays (now : Z) (req : CartRequest) (db : DB) (oid : ObjectId) :
  (exists p, In p (products db) /\ product_id p = oid) ->
  exists p, In p (products (fst (post_api_cart now req db))) /\
            product_id p = oid.
Proof. now rewrite post_api_cart_products. Qed.

Lemma adds_on_existing_line (pid : string) (oid : ObjectId)
    (adds : list (Z * option Z)) :
  castObjectId pid = Some oid ->
  forall db item z,
    well_formed db ->
    (exists p, In p (products db) /\ product_id p = oid) ->
    lines_for oid db = [item] ->
    quantity item = units z ->
    Z.abs z + sum (map (fun a => Z.abs (effective a)) adds) <= safe ->
    Forall (fun r => status r = 201)
      (responses (add_requests pid (integers adds)) db) /\
    exists line,
      lines_for oid (run (add_requests pid (integers adds)) db) = [line] /\
      quantity line = units (z + sum (map effective adds)).
Proof.
  intros Hcast.
  induction adds as [|[now q] rest IH]; intros db item z Hwf Hprod Hone Hz Hsafe.
  - cbn [integers add_requests map run responses]. split; [constructor|].
    exists item. split; [exact Hone|].
    unfold sum. cbn [map fold_right]. now rewrite Z.add_0_r.
  - cbn [integers add_requests map run responses serve fst snd].
    fold (integers rest). fold (add_requests pid (integers rest)).
    unfold sum in Hsafe. cbn [map fold_right] in Hsafe.
    change (effective (now, q)) with (JS.or_else q 1) in Hsafe.
    assert (Hrest : 0 <= fold_right Z.add 0
                           (map (fun a => Z.abs (effective a)) rest)).
    { clear. induction rest as [|x xs IHx]; cbn [map fold_right]; lia. }
    assert (Hbound : forall x, q = Some x -> - safe <= x <= safe).
    { intros x ->. pose proof (or_else_magnitude x). lia. }
    assert (Hnext : next_quantity (quantity item) (option_map JS.int q)
                    = Some (units (z + JS.or_else q 1))).
    { rewrite Hz. apply next_quantity_int; [exact Hbound | lia]. }
    destruct (add_bumps_line now pid oid (option_map JS.int q) _ db item
                Hwf Hcast Hprod Hone Hnext) as [Hanswer Hline].
    destruct (IH (fst (post_api_cart now
                         (mkCartRequest (Some pid) (option_map JS.int q)) db))
                 (bumped item (units (z + JS.or_else q 1)))
                 (z + JS.or_else q 1))
      as [Hall (line & Hlines & Hq)].
    + now apply well_formed_cart.
    + now apply product_stays.
    + exact Hline.
    + reflexivity.
    + unfold sum. lia.
    + split; [constructor; [now rewrite Hanswer | assumption]|].
      exists line. split; [exact Hlines|].
      rewrite Hq. unfold sum. cbn [map fold_right].
      change (effective (now, q)) with (JS.or_else q 1).
      f_equal. lia.
Qed.

(** C1, as the specification states it, fails for a quantity of 0: it
    is falsy, so it counts as 1, while the sum of the requested
    quantities is 0.  It fails as well when a quantity is a text, which
    is appended to the digits of the quantity held (3 then the text 2
    leave 32), and when the sum is not a double (2^53 then 1 leave
    2^53). *)
Lemma zero_quantity_counts_as_one :
  let held qs :=
    map quantity
      (lines_for 0%N
         (run (add_requests milk_id
                 (map (fun q => (1700000000001, Some q)) qs)) shop)) in
  held [JS.int 0] = [units 1] /\
  sum (map (fun a => Spec.requested (snd a)) [(1700000000001, Some 0)]) = 0 /\
  held [JS.int 3; JS.VStr "2"] = [units 32] /\
  held [JS.int (2 ^ 53); JS.int 1] = [units (2 ^ 53)].
Proof.
  intros held. repeat split; vm_compute; reflexivity.
Qed.

Lemma filter_matches_absent (oid : ObjectId) (l : list Cart) :
  ~ In oid (map productId l) -> filter (matches_product oid) l = [].
Proof.
  induction l as [|c r IH]; intros Hnot; [reflexivity|].
  cbn [filter]. unfold matches_product at 1.
  destruct (N.eqb_spec (productId c) oid) as [E|_].
  - exfalso. apply Hnot. now left.
  - apply IH. intros H. apply Hnot. now right.
Qed.

(** In a well-formed database a product has no cart line or one. *)
Lemma lines_for_at_most_one (oid : ObjectId) (db : DB) :
  well_formed db ->
  lines_for oid db = [] \/ exists item, lines_for oid db = [item].
Proof.
  intros (_ & _ & _ & _ & Hone). unfold lines_for.
  induction (carts db) as [|c r IH]; [now left|].
  cbn [map] in Hone. inversion Hone as [|? ? Hnot Hrest]; subst.
  cbn [filter]. destruct (matches_product oid c) eqn:E.
  - right. exists c. apply N.eqb_eq in E. subst oid.
    now rewrite filter_matches_absent.
  - now apply IH.
Qed.

(** C1, amended.  In a reachable database that holds the product,
    with either no cart line for it (z = 0) or one line holding the
    integer z, take N >= 1 add-to-cart calls for that product whose
    quantities are omitted or JSON integers, an omitted or zero quantity
    counting as 1, such that the magnitudes of z and of the quantities
    add up to 2^53 at most.  Then every call answers 201, and afterwards
    exactly one line exists for the product, holding z plus the sum of
    the quantities. *)
Theorem repeated_adds_accumulate
    (pid : string) (oid : ObjectId) (adds : list (Z * option Z)) (db : DB)
    (z : Z) :
  reachable db ->
  castObjectId pid = Some oid ->
  (exists p, In p (products db) /\ product_id p = oid) ->
  held oid db z ->
  adds <> [] ->
  Z.abs z + sum (map (fun a => Z.abs (effective a)) adds) <= safe ->
  Forall (fun r => status r = 201)
    (responses (add_requests pid (integers adds)) db) /\
  exists line,
    lines_for oid (run (add_requests pid (integers adds)) db) = [line] /\
    quantity line = units (z + sum (map effective adds)).
Proof.
  intros Hreach Hcast Hprod Hheld Hadds Hsafe.
  pose proof (reachable_well_formed db Hreach) as Hwf.
  destruct Hheld as [[Hnone ->] | (item & Hone & Hz)];
    [|exact (adds_on_existing_line pid oid adds Hcast db item z
               Hwf Hprod Hone Hz Hsafe)].
  destruct adds as [|[now q] rest]; [contradiction|].
  cbn [integers add_requests map run responses serve fst snd].
  fold (integers rest). fold (add_requests pid (integers rest)).
  unfold sum in Hsafe. cbn [map fold_right] in Hsafe.
  change (effective (now, q)) with (JS.or_else q 1) in Hsafe.
  assert (Hrest : 0 <= fold_right Z.add 0
                         (map (fun a => Z.abs (effective a)) rest)).
  { clear. induction rest as [|x xs IHx]; cbn [map fold_right]; lia. }
  assert (Hbound : forall x, q = Some x -> - safe <= x <= safe).
  { intros x ->. pose proof (or_else_magnitude x). lia. }
  pose proof (first_quantity_int q Hbound) as Hfirst.
  destruct (add_creates_line now pid oid (option_map JS.int q) _ db
              Hcast Hprod Hnone Hfirst) as [Hanswer Hline].
  destruct (adds_on_existing_line pid oid rest Hcast
              (fst (post_api_cart now
                      (mkCartRequest (Some pid) (option_map JS.int q)) db))
              (new_line db oid now (units (JS.or_else q 1)))
              (JS.or_else q 1))
    as [Hall (line & Hlines & Hq)].
  - now apply well_formed_cart.
  - now apply product_stays.
  - exact Hline.
  - reflexivity.
  - unfold sum. lia.
  - split; [constructor; [now rewrite Hanswer | assumption]|].
    exists line. split; [exact Hlines|].
    rewrite Hq. unfold sum. cbn [map fold_right].
    now change (effective (now, q)) with (JS.or_else q 1).
Qed.

Lemma repeated_adds_accumulate_witness :
  let adds := [(1700000000001, Some 3); (1700000000002, Some 2);
               (1700000000003, None)] in
  exists line,
    lines_for 0%N (run (add_requests milk_id (integers adds)) shop) = [line] /\
    quantity line = units 6.
Proof.
  intros adds.
  assert (Hreach : reachable shop).
  { apply (reachable_run _ (empty_db 0%N)). constructor. }
  assert (Hprod : exists p, In p (products shop) /\ product_id p = 0%N).
  { eexists. split; [left; reflexivity | reflexivity]. }
  assert (Hheld : held 0%N shop 0) by (left; split; reflexivity).
  assert (Hadds : adds <> []) by discriminate.
  assert (Hsafe : Z.abs 0 + sum (map (fun a => Z.abs (effective a)) adds)
                  <= safe).
  { unfold safe. cbn. lia. }
  exact (proj2 (repeated_adds_accumulate milk_id 0%N adds shop 0
                  Hreach eq_refl Hprod Hheld Hadds Hsafe)).
Defined.


(* ================================================================== *)
(** ** Further properties of the routes *)
(* ================================================================== *)

(** *** The upload, rule by rule *)

Lemma handle_parts_stored (parts : list File) :
  forall n stored, 0 <= n ->
    Multer.handle_parts "images" n parts = inr stored ->
    Z.of_nat (List.length (Spec.attached parts)) <= n /\
    Forall part_ok (Spec.attached parts) /\
    stored = map Multer.store (Spec.attached parts).
Proof.
  induction parts as [|f rest IH]; intros n stored Hn Hrun.
  - cbn in Hrun. injection Hrun as <-. cbn. repeat split; [lia | constructor].
  - cbn [Multer.handle_parts] in Hrun. rewrite attached_cons.
    destruct (Multer.named f); cbn [negb] in Hrun; [|now apply IH].
    destruct (negb (String.eqb (fieldname f) "images") || (n <=? 0)) eqn:Hguard;
      [discriminate|].
    apply orb_false_iff in Hguard as [Hfield Hpos].
    apply negb_false_iff, String.eqb_eq in Hfield. apply Z.leb_gt in Hpos.
    destruct (allowed_type_dec (mimetype f)) as [Hok | Hno];
      [|rewrite (fileFilter_refused f Hno) in Hrun; discriminate].
    rewrite (fileFilter_allowed f Hok) in Hrun.
    destruct (fileSize <? size f) eqn:Hsize; [discriminate|].
    apply Z.ltb_ge in Hsize.
    destruct (Multer.handle_parts "images" (n - 1) rest) as [e|tail] eqn:Hrest;
      [discriminate|].
    injection Hrun as <-.
    destruct (IH (n - 1) tail) as (Hlen & Hall & ->); [lia | exact Hrest|].
    cbn [List.length map]. repeat split.
    + lia.
    + constructor; [|exact Hall].
      repeat split; assumption.
Qed.

(** Parts that are stored do not hide the error of a later part. *)
Lemma handle_parts_first_offender (good tail : list File) (e : Error) :
  forall n,
    Forall part_within good ->
    Z.of_nat (List.length good) <= n ->
    Multer.handle_parts "images" (n - Z.of_nat (List.length good)) tail = inl e ->
    Multer.handle_parts "images" n (good ++ tail) = inl e.
Proof.
  induction good as [|g good IH]; intros n Hall Hlen Htail.
  - cbn [app List.length Z.of_nat] in *. now rewrite Z.sub_0_r in Htail.
  - inversion Hall as [|? ? (Hnamed & Hfield & Htype & Hsize) Hgood]; subst.
    cbn [app List.length] in *.
    cbn [Multer.handle_parts].
    rewrite Hnamed, Hfield, String.eqb_refl. cbn [negb orb].
    destruct (n <=? 0) eqn:Hpos; [apply Z.leb_le in Hpos; lia|].
    rewrite (fileFilter_allowed g Htype).
    destruct (fileSize <? size g) eqn:Hbig.
    { apply Z.ltb_lt in Hbig. unfold Spec.max_bytes, fileSize in *. lia. }
    rewrite (IH (n - 1)); [reflexivity | assumption | lia |].
    replace (n - 1 - Z.of_nat (List.length good))
      with (n - Z.of_nat (S (List.length good))) by lia.
    exact Htail.
Qed.

Lemma photo_within : part_within photo.
Proof.
  repeat split. right. now left.
Qed.

Lemma upload_error_response (now : Z) (req : ProductRequest) (db : DB)
    (e : Error) :
  Multer.array "images" 5 (req_files req) = inl e ->
  post_api_products now req db = (db, errorHandler e).
Proof.
  intros Hrun. now rewrite post_api_products_unfold, Hrun.
Qed.

(** X2. When the first part to break a rule is a named file of another
    type than the three images, the request is answered 500 with the
    fixed message, whatever stored pictures come before it and whatever
    comes after it, and the database is left as it was. *)
Theorem first_offender_wrong_type
    (now : Z) (req : ProductRequest) (db : DB)
    (good : list File) (f : File) (rest : list File) :
  req_files req = good ++ f :: rest ->
  Forall part_within good ->
  (List.length good < 5)%nat ->
  Multer.named f = true ->
  fieldname f = "images" ->
  ~ Spec.allowed_type (mimetype f) ->
  post_api_products now req db
    = (db, json 500 (ErrorBody "Something went wrong!")).
Proof.
  intros Hfiles Hgood Hlen Hnamed Hfield Htype.
  rewrite (upload_error_response now req db
             (PlainError "Only JPEG, JPG, and PNG images are allowed!"));
    [reflexivity|].
  rewrite Hfiles. unfold Multer.array.
  apply handle_parts_first_offender; [assumption | lia |].
  cbn [Multer.handle_parts].
  rewrite Hnamed, Hfield, String.eqb_refl. cbn [negb orb].
  destruct (5 - Z.of_nat (List.length good) <=? 0) eqn:Hpos;
    [apply Z.leb_le in Hpos; lia|].
  now rewrite (fileFilter_refused f Htype).
Qed.

Lemma first_offender_wrong_type_witness :
  post_api_products 1700000000001 (with_files [photo; notes; poster]) shop
    = (shop, json 500 (ErrorBody "Something went wrong!")).
Proof.
  apply (first_offender_wrong_type 1700000000001
           (with_files [photo; notes; poster]) shop [photo] notes [poster]).
  - reflexivity.
  - constructor; [exact photo_within | constructor].
  - cbn. lia.
  - reflexivity.
  - reflexivity.
  - intros [H | [H | H]]; discriminate.
Defined.

(** X3. When the first part to break a rule is a named image of an
    allowed type that runs over [limits.fileSize], the request is
    answered 400 with [File upload error: File too large], and the
    database is left as it was. *)
Theorem first_offender_too_large
    (now : Z) (req : ProductRequest) (db : DB)
    (good : list File) (f : File) (rest : list File) :
  req_files req = good ++ f :: rest ->
  Forall part_within good ->
  (List.length good < 5)%nat ->
  Multer.named f = true ->
  fieldname f = "images" ->
  Spec.allowed_type (mimetype f) ->
  fileSize < size f ->
  post_api_products now req db
    = (db, json 400 (ErrorBody "File upload error: File too large")).
Proof.
  intros Hfiles Hgood Hlen Hnamed Hfield Htype Hsize.
  rewrite (upload_error_response now req db (MulterError LIMIT_FILE_SIZE));
    [reflexivity|].
  rewrite Hfiles. unfold Multer.array.
  apply handle_parts_first_offender; [assumption | lia |].
  cbn [Multer.handle_parts].
  rewrite Hnamed, Hfield, String.eqb_refl. cbn [negb orb].
  destruct (5 - Z.of_nat (List.length good) <=? 0) eqn:Hpos;
    [apply Z.leb_le in Hpos; lia|].
  rewrite (fileFilter_allowed f Htype).
  apply Z.ltb_lt in Hsize. now rewrite Hsize.
Qed.

Lemma first_offender_too_large_witness :
  post_api_products 1700000000001 (with_files [photo; poster; notes]) shop
    = (shop, json 400 (ErrorBody "File upload error: File too large")).
Proof.
  apply (first_offender_too_large 1700000000001
           (with_files [photo; poster; notes]) shop [photo] poster [notes]).
  - reflexivity.
  - constructor; [exact photo_within | constructor].
  - cbn. lia.
  - reflexivity.
  - reflexivity.
  - right. now left.
  - unfold fileSize. cbn. lia.
Defined.

(** X4. A named file in another field than [images], or a sixth named
    file after five that are stored, is answered 400 with a body that
    starts with [File upload error: ], before its type or size is looked
    at, and the database is left as it was. *)
Theorem unexpected_file_answers_400
    (now : Z) (req : ProductRequest) (db : DB)
    (good : list File) (f : File) (rest : list File) :
  req_files req = good ++ f :: rest ->
  Forall part_within good ->
  (List.length good <= 5)%nat ->
  Multer.named f = true ->
  List.length good = 5%nat \/ fieldname f <> "images" ->
  exists detail,
    post_api_products now req db
      = (db, json 400 (ErrorBody ("File upload error: " +++ detail))).
Proof.
  intros Hfiles Hgood Hlen Hnamed Hwhy.
  exists (error_message (MulterError LIMIT_UNEXPECTED_FILE)).
  rewrite (upload_error_response now req db (MulterError LIMIT_UNEXPECTED_FILE));
    [reflexivity|].
  rewrite Hfiles. unfold Multer.array.
  apply handle_parts_first_offender; [assumption | lia |].
  cbn [Multer.handle_parts]. rewrite Hnamed. cbn [negb].
  destruct Hwhy as [Hfull | Hfield].
  - rewrite Hfull. cbn [Z.of_nat Pos.of_succ_nat Pos.succ Z.sub Z.opp Z.add
                        Z.pos_sub Z.leb Z.compare].
    now rewrite orb_true_r.
  - apply String.eqb_neq in Hfield. now rewrite Hfield.
Qed.

Lemma unexpected_file_answers_400_witness :
  exists detail,
    post_api_products 1700000000001
      (with_files [photo; photo; photo; photo; photo; notes]) shop
    = (shop, json 400 (ErrorBody ("File upload error: " +++ detail))).
Proof.
  apply (unexpected_file_answers_400 1700000000001
           (with_files [photo; photo; photo; photo; photo; notes]) shop
           [photo; photo; photo; photo; photo] notes []).
  - reflexivity.
  - repeat (constructor; [exact photo_within|]). constructor.
  - cbn. lia.
  - reflexivity.
  - now left.
Defined.

(** *** Creating products: what is stored *)

Lemma validateProduct_conforms (p : Product) :
  validateProduct p = None -> conforms p.
Proof.
  unfold validateProduct, conforms. intros H.
  destruct (String.eqb_spec (title p) "") as [|Htitle]; [discriminate|].
  destruct (JS.isNaN (price p)); [discriminate|].
  destruct (JS.isNaN (discount p)); [discriminate|].
  destruct (existsb (String.eqb (itemType p)) itemType_enum) eqn:Htype;
    [|discriminate].
  cbn [negb] in H.
  destruct (JS.isNaN (rating p)); [discriminate|].
  destruct (JS.leb (JS.Finite 0) (rating p)); [|discriminate].
  destruct (JS.leb (rating p) (JS.Finite 5)); [|discriminate].
  repeat split; try assumption.
  apply existsb_exists in Htype as (t & Hin & Heq).
  apply String.eqb_eq in Heq. now subst t.
Qed.

Lemma serve_products_grow (r : Request) (db : DB) :
  products (fst (serve r db)) = products db \/
  exists p, products (fst (serve r db)) = products db ++ [p] /\
            validateProduct p = None /\
            images_in_uploads p.
Proof.
  destruct r as [now req | now req | |]; cbn [serve];
    [| left; apply post_api_cart_products | now left | now left].
  rewrite post_api_products_unfold.
  destruct (Multer.array "images" 5 (req_files req)) as [err|stored] eqn:Hup;
    [now left|].
  destruct (negb (JS.truthy (req_title req)) || negb (JS.truthy (req_price req)));
    [now left|].
  cbv zeta.
  destruct (validateProduct _) eqn:Hval; [now left|].
  right. eexists. split; [reflexivity|]. split; [exact Hval|].
  apply handle_parts_stored in Hup as (Hlen & Hall & ->); [|lia].
  unfold images_in_uploads, product_of. cbn [images].
  rewrite !length_map. split; [lia|].
  rewrite map_map. apply Forall_map. apply Forall_forall. intros f _.
  unfold Multer.store, destination. cbn [path append prefix].
  repeat (destruct (ascii_dec _ _) as [_|Hne]; [|now contradiction Hne]).
  destruct (filename f); reflexivity.
Qed.

Lemma reachable_products (P : Product -> Prop) :
  (forall p, validateProduct p = None -> images_in_uploads p -> P p) ->
  forall db, reachable db -> Forall P (products db).
Proof.
  intros HP db. induction 1 as [seed | db r _ IH]; [constructor|].
  destruct (serve_products_grow r db) as [-> | (p & -> & Hval & Himg)];
    [exact IH|].
  apply Forall_app. split; [exact IH|].
  constructor; [now apply HP | constructor].
Qed.

(** X6. Every product the server has stored conforms to
    [productSchema]: a title, numbers for price, discount and rating,
    an item type among [cold], [organic] and [regular], and a rating
    within 0..5. *)
Theorem stored_products_conform (db : DB) :
  reachable db -> Forall conforms (products db).
Proof.
  apply reachable_products. intros p Hval _. now apply validateProduct_conforms.
Qed.

Lemma stored_products_conform_witness : Forall conforms (products shop).
Proof.
  apply stored_products_conform.
  apply (reachable_run _ (empty_db 0%N)). constructor.
Defined.

(** X7. Every product the server has stored has at most five images,
    and each image path lies under [uploads/], the directory the server
    serves statically. *)
Theorem stored_images_in_uploads (db : DB) :
  reachable db -> Forall images_in_uploads (products db).
Proof.
  apply reachable_products. intros p _ Himg. exact Himg.
Qed.

Lemma stored_images_in_uploads_witness :
  Forall images_in_uploads
    (products (run [POST_products 1700000000001 (with_files [photo; photo])] shop)).
Proof.
  apply stored_images_in_uploads.
  apply reachable_run. apply (reachable_run _ (empty_db 0%N)). constructor.
Defined.

Lemma run_app (rs rs' : list Request) (db : DB) :
  run (rs ++ rs') db = run rs' (run rs db).
Proof.
  revert db. induction rs as [|r rest IH]; intros db; [reflexivity|].
  cbn [app run]. apply IH.
Qed.

(** X8. No request removes or rewrites a product: after any sequence of
    requests the products collection is the one before, in the same
    order, followed by the products created since. *)
Theorem products_append_only (rs : list Request) (db : DB) :
  exists added, products (run rs db) = products db ++ added.
Proof.
  revert db. induction rs as [|r rest IH]; intros db; cbn [run].
  - exists []. now rewrite app_nil_r.
  - destruct (IH (fst (serve r db))) as [added Hadded].
    destruct (serve_products_grow r db) as [Hsame | (p & Hgrow & _)].
    + exists added. now rewrite Hadded, Hsame.
    + exists (p :: added). rewrite Hadded, Hgrow, <- app_assoc. reflexivity.
Qed.

(** *** The cart: who gets in, and what is stored *)

Lemma updateOne_quantity_identity (id : ObjectId) (q : option JS.number)
    (l : list Cart) :
  map line_identity (updateOne_quantity id q l) = map line_identity l.
Proof.
  induction l as [|c r IH]; [reflexivity|].
  cbn [updateOne_quantity].
  destruct (cart_id c =? id)%N; cbn [map]; [reflexivity | now rewrite IH].
Qed.

Lemma serve_line_identities (r : Request) (db : DB) :
  exists added,
    map line_identity (carts (fst (serve r db)))
    = map line_identity (carts db) ++ added.
Proof.
  assert (Hsame : forall l : list Cart,
             exists added, map line_identity l = map line_identity l ++ added).
  { intros l. exists []. now rewrite app_nil_r. }
  destruct r as [now req | now req | |]; cbn [serve];
    [rewrite post_api_products_carts; apply Hsame | | apply Hsame | apply Hsame].
  rewrite post_api_cart_unfold.
  destruct (req_productId req) as [pid|]; [|apply Hsame].
  destruct (String.eqb pid ""); [apply Hsame|].
  destruct (castObjectId pid) as [oid|]; [|apply Hsame].
  destruct (find (has_id oid) (products db)); [|apply Hsame].
  destruct (find (matches_product oid) (carts db)) as [item|].
  - destruct (next_quantity _ _); cbn [fst carts]; [|apply Hsame].
    rewrite updateOne_quantity_identity. apply Hsame.
  - destruct (first_quantity _); cbn [fst carts]; [|apply Hsame].
    eexists. now rewrite map_app.
Qed.

(** X9. No request removes a cart line or changes its identifier, the
    product it references or its [addedAt]: after any sequence of
    requests the lines of before are still there, in the same order,
    followed by the lines created since.  Only quantities move. *)
Theorem cart_lines_keep_identity (rs : list Request) (db : DB) :
  exists added,
    map line_identity (carts (run rs db))
    = map line_identity (carts db) ++ added.
Proof.
  revert db. induction rs as [|r rest IH]; intros db; cbn [run].
  - exists []. now rewrite app_nil_r.
  - destruct (IH (fst (serve r db))) as [added Hadded].
    destruct (serve_line_identities r db) as [first Hfirst].
    exists (first ++ added). now rewrite Hadded, Hfirst, app_assoc.
Qed.


(** X11. In every database the server can reach, a product has at most
    one cart line, whatever requests were served and in whatever
    order. *)
Theorem one_line_per_product (db : DB) (oid : ObjectId) :
  reachable db -> (List.length (lines_for oid db) <= 1)%nat.
Proof.
  intros Hreach.
  destruct (lines_for_at_most_one oid db (reachable_well_formed db Hreach))
    as [-> | [item ->]]; cbn; lia.
Qed.

Lemma one_line_per_product_witness :
  (List.length
     (lines_for 0%N
        (run (add_requests milk_id (integers two_adds)) shop))
   <= 1)%nat.
Proof.
  apply one_line_per_product.
  apply reachable_run. apply (reachable_run _ (empty_db 0%N)). constructor.
Defined.

Lemma references_resolve_serve (r : Request) (db : DB) :
  references_resolve db -> references_resolve (fst (serve r db)).
Proof.
  unfold references_resolve. intros Hrefs.
  destruct r as [now req | now req | |]; cbn [serve]; try exact Hrefs.
  - rewrite post_api_products_carts.
    destruct (serve_products_grow (POST_products now req) db)
      as [Hsame | (p & Hgrow & _)]; cbn [serve] in *.
    + now rewrite Hsame.
    + rewrite Hgrow, map_app. now apply incl_appl.
  - rewrite post_api_cart_unfold.
    destruct (req_productId req) as [pid|]; [|exact Hrefs].
    destruct (String.eqb pid ""); [exact Hrefs|].
    destruct (castObjectId pid) as [oid|]; [|exact Hrefs].
    destruct (find (has_id oid) (products db)) as [p|] eqn:Hfind; [|exact Hrefs].
    destruct (find (matches_product oid) (carts db)).
    + destruct (next_quantity _ _); cbn [fst products carts]; [|exact Hrefs].
      now rewrite updateOne_quantity_refs.
    + destruct (first_quantity _); cbn [fst products carts]; [|exact Hrefs].
      rewrite map_app. apply incl_app; [exact Hrefs|].
      cbn [map new_line productId].
      apply find_some in Hfind as [Hin Hid]. apply N.eqb_eq in Hid.
      intros x [<- | []]. rewrite <- Hid. now apply in_map.
Qed.

Lemma reachable_references_resolve (db : DB) :
  reachable db -> references_resolve db.
Proof.
  induction 1 as [seed | db r _ IH].
  - intros x [].
  - now apply references_resolve_serve.
Qed.

Lemma referenced_product (db : DB) (c : Cart) :
  references_resolve db -> In c (carts db) ->
  exists p, find (has_id (productId c)) (products db) = Some p /\
            In p (products db) /\ product_id p = productId c.
Proof.
  intros Hrefs Hin.
  assert (Hid : In (productId c) (map product_id (products db))).
  { apply Hrefs. now apply in_map. }
  apply in_map_iff in Hid as (p0 & Hp0 & Hin0).
  destruct (find_has_id_some db (productId c)) as [p Hfind];
    [now exists p0|].
  exists p. split; [exact Hfind|].
  apply find_some in Hfind as [Hp Hmatch]. apply N.eqb_eq in Hmatch.
  now split.
Qed.

(** X12. In every database the server can reach, every cart line
    references a stored product: a line is only created after its
    product was found, and products are never removed. *)
Theorem cart_references_stored_products (db : DB) (c : Cart) :
  reachable db -> In c (carts db) ->
  exists p, In p (products db) /\ product_id p = productId c.
Proof.
  intros Hreach Hin.
  destruct (referenced_product db c (reachable_references_resolve db Hreach) Hin)
    as (p & _ & Hp & Hid).
  now exists p.
Qed.

Lemma cart_references_stored_products_witness :
  let db :=
    run (add_requests milk_id (integers [(1700000000001, Some 3)])) shop in
  exists p, In p (products db) /\ product_id p = 0%N.
Proof.
  intros db.
  apply (cart_references_stored_products db
           (mkCart 1%N 0%N (units 3) 1700000000001)).
  - apply reachable_run. apply (reachable_run _ (empty_db 0%N)). constructor.
  - left. vm_compute. reflexivity.
Defined.

(** X13. In every database the server can reach, [GET /api/cart]
    answers 200 with one entry per cart line, in storage order, and each
    entry carries the stored product its line references, never [null];
    the database is left as it was. *)
Theorem get_api_cart_populated (db : DB) :
  reachable db ->
  exists items,
    get_api_cart db = (db, json 200 (CartList items)) /\
    map fst items = carts db /\
    Forall (fun e => exists p, snd e = Some p /\
                               In p (products db) /\
                               product_id p = productId (fst e)) items.
Proof.
  intros Hreach.
  exists (map (fun c => (c, find (has_id (productId c)) (products db)))
              (carts db)).
  split; [reflexivity|]. split.
  - rewrite map_map. cbn [fst]. apply map_id.
  - apply Forall_map. apply Forall_forall. intros c Hin. cbn [fst snd].
    destruct (referenced_product db c (reachable_references_resolve db Hreach) Hin)
      as (p & Hfind & Hp & Hid).
    exists p. now repeat split.
Qed.

Lemma get_api_cart_populated_witness :
  let db :=
    run (add_requests milk_id (integers [(1700000000001, Some 3)])) shop in
  exists items,
    get_api_cart db = (db, json 200 (CartList items)) /\
    map fst items = carts db.
Proof.
  intros db.
  destruct (get_api_cart_populated db) as (items & Hget & Hlines & _).
  - apply reachable_run. apply (reachable_run _ (empty_db 0%N)). constructor.
  - exists items. now split.
Defined.

(** X14. In every database the server can reach, an add-to-cart request
    whose [productId] is a text leaves the cart lines of every other
    product as they were: adding one product never touches the quantity
    of another. *)
Theorem add_leaves_other_lines
    (now : Z) (req : CartRequest) (db : DB) (other : ObjectId) :
  reachable db ->
  (forall pid, req_productId req = Some pid ->
               castObjectId pid <> Some other) ->
  lines_for other (fst (post_api_cart now req db)) = lines_for other db.
Proof.
  intros Hreach Hother.
  pose proof (reachable_well_formed db Hreach) as (_ & _ & _ & Hnd & _).
  rewrite post_api_cart_unfold.
  destruct (req_productId req) as [pid|]; [|reflexivity].
  specialize (Hother pid eq_refl).
  destruct (String.eqb pid ""); [reflexivity|].
  destruct (castObjectId pid) as [oid|]; [|reflexivity].
  assert (Hneq : oid <> other) by congruence.
  destruct (find (has_id oid) (products db)); [|reflexivity].
  destruct (find (matches_product oid) (carts db)) as [item|] eqn:Hfind.
  - destruct (next_quantity _ _) as [q|]; [|reflexivity].
    unfold lines_for; cbn [fst carts].
    apply find_some in Hfind as [Hitem Hmatch]. apply N.eqb_eq in Hmatch.
    rewrite (updateOne_quantity_map _ _ _ Hnd), filter_set_quantity.
    apply set_quantity_other. intros Hin.
    apply in_map_iff in Hin as (c & Hid & Hc).
    apply filter_In in Hc as [Hc Hcm]. apply N.eqb_eq in Hcm.
    assert (c = item) by (now apply (NoDup_map_inj cart_id (carts db))).
    subst c. congruence.
  - destruct (first_quantity _) as [q|]; [|reflexivity].
    unfold lines_for; cbn [fst carts].
    rewrite filter_app.
    assert (Hno : matches_product other (new_line db oid now q) = false).
    { unfold matches_product, new_line. cbn [productId]. now apply N.eqb_neq. }
    cbn [filter]. rewrite Hno. apply app_nil_r.
Qed.

Lemma add_leaves_other_lines_witness :
  let req := mkCartRequest (Some bread_id) (Some (JS.int 2)) in
  status (snd (post_api_cart 1700000000009 req pantry)) = 201 /\
  lines_for 0%N (fst (post_api_cart 1700000000009 req pantry))
  = lines_for 0%N pantry.
Proof.
  intros req. split; [vm_compute; reflexivity|].
  apply (add_leaves_other_lines 1700000000009 req pantry 0%N).
  - apply (reachable_run _ (empty_db 0%N)). constructor.
  - intros pid Hpid. injection Hpid as <-. discriminate.
Defined.

Lemma lines_for_found (oid : ObjectId) (db : DB) (item : Cart) :
  well_formed db ->
  find (matches_product oid) (carts db) = Some item ->
  lines_for oid db = [item].
Proof.
  intros Hwf Hfind. rewrite find_of_filter in Hfind. fold (lines_for oid db) in Hfind.
  destruct (lines_for_at_most_one oid db Hwf) as [Hnone | [x Hone]].
  - rewrite Hnone in Hfind. discriminate.
  - rewrite Hone in Hfind |- *. cbn in Hfind. congruence.
Qed.

Lemma lines_for_not_found (oid : ObjectId) (db : DB) :
  find (matches_product oid) (carts db) = None ->
  lines_for oid db = [].
Proof.
  intros Hfind. apply filter_matches_absent. now apply find_matches_none.
Qed.

(** X15. In every database the server can reach, the [cartItem] of a
    201 answer is the line that is stored: after the request it is the
    one and only line of the product it references. *)
Theorem answered_line_is_stored
    (now : Z) (req : CartRequest) (db : DB) (message : string) (item : Cart) :
  reachable db ->
  snd (post_api_cart now req db) = json 201 (CartAdded message item) ->
  lines_for (productId item) (fst (post_api_cart now req db)) = [item].
Proof.
  intros Hreach.
  pose proof (reachable_well_formed db Hreach) as Hwf.
  destruct req as [v q].
  pose proof (post_api_cart_unfold now (mkCartRequest v q) db) as Hcases.
  cbn [req_productId req_quantity] in Hcases.
  destruct v as [pid|]; [|rewrite Hcases; discriminate].
  destruct (String.eqb pid ""); [rewrite Hcases; discriminate|].
  destruct (castObjectId pid) as [oid|] eqn:Hcast; [|rewrite Hcases; discriminate].
  destruct (find (has_id oid) (products db)) as [p|] eqn:Hprod;
    [|rewrite Hcases; discriminate].
  assert (Hexists : exists p, In p (products db) /\ product_id p = oid).
  { apply find_some in Hprod as [Hin Hid]. apply N.eqb_eq in Hid. now exists p. }
  destruct (find (matches_product oid) (carts db)) as [old|] eqn:Hfind.
  - destruct (next_quantity (quantity old) q) as [total|] eqn:Hnext;
      [|rewrite Hcases; discriminate].
    intros Hanswer. rewrite Hcases in Hanswer. cbn [snd] in Hanswer.
    injection Hanswer as _ <-.
    pose proof (lines_for_found oid db old Hwf Hfind) as Hone.
    destruct (add_bumps_line now pid oid q total db old
                Hwf Hcast Hexists Hone Hnext) as [_ Hline].
    apply find_some in Hfind as [_ Hmatch]. apply N.eqb_eq in Hmatch.
    cbn [bumped productId]. rewrite Hmatch. exact Hline.
  - destruct (first_quantity q) as [first|] eqn:Hfirst;
      [|rewrite Hcases; discriminate].
    intros Hanswer. rewrite Hcases in Hanswer. cbn [snd] in Hanswer.
    injection Hanswer as _ <-.
    pose proof (lines_for_not_found oid db Hfind) as Hnone.
    destruct (add_creates_line now pid oid q first db
                Hcast Hexists Hnone Hfirst) as [_ Hline].
    cbn [new_line productId]. exact Hline.
Qed.

Lemma answered_line_is_stored_witness :
  lines_for 0%N
    (fst (post_api_cart 1700000000001
            (mkCartRequest (Some milk_id) (Some (JS.int 3))) shop))
  = [mkCart 1%N 0%N (units 3) 1700000000001].
Proof.
  apply (answered_line_is_stored 1700000000001
           (mkCartRequest (Some milk_id) (Some (JS.int 3))) shop
           "Product added to cart successfully"
           (mkCart 1%N 0%N (units 3) 1700000000001)).
  - apply (reachable_run _ (empty_db 0%N)). constructor.
  - vm_compute. reflexivity.
Defined.

Lemma product_created_inv (now : Z) (req : ProductRequest) (db : DB)
    (message : string) (p : Product) :
  snd (post_api_products now req db) = json 201 (ProductCreated message p) ->
  fst (post_api_products now req db)
    = mkDB (products db ++ [p]) (carts db) (N.succ (nextObjectId db)) /\
  product_id p = nextObjectId db /\
  createdAt p = now.
Proof.
  rewrite post_api_products_unfold.
  destruct (Multer.array "images" 5 (req_files req)) as [err|stored].
  { destruct err; discriminate. }
  destruct (negb (JS.truthy (req_title req)) || negb (JS.truthy (req_price req)));
    [discriminate|].
  cbv zeta. destruct (validateProduct _); [discriminate|].
  cbn [fst snd]. intros H. injection H as _ <-. repeat split.
Qed.

(** X16. A product that was just created can be added to the cart: in
    every database the server can reach, after a 201 from
    [POST /api/products], a [POST /api/cart] that writes the new
    product's id, with no quantity or with a JSON integer of magnitude
    2^53 at most, answers 201 and creates the product's only line, with
    that quantity (1 when omitted or zero) and the clock reading of the
    request. *)
Theorem created_product_can_be_added
    (now now' : Z) (req : ProductRequest) (db : DB) (message : string)
    (p : Product) (pid : string) (q : option Z) :
  reachable db ->
  snd (post_api_products now req db) = json 201 (ProductCreated message p) ->
  castObjectId pid = Some (product_id p) ->
  (forall z, q = Some z -> - safe <= z <= safe) ->
  let db1 := fst (post_api_products now req db) in
  let add := mkCartRequest (Some pid) (option_map JS.int q) in
  let line :=
    mkCart (nextObjectId db1) (product_id p) (units (JS.or_else q 1)) now' in
  snd (post_api_cart now' add db1)
    = json 201 (CartAdded "Product added to cart successfully" line) /\
  lines_for (product_id p) (fst (post_api_cart now' add db1)) = [line].
Proof.
  intros Hreach Hcreated Hcast Hbound db1 add line.
  pose proof (reachable_well_formed db Hreach) as (Hbelow & _).
  pose proof (reachable_references_resolve db Hreach) as Hrefs.
  destruct (product_created_inv now req db message p Hcreated)
    as (Hdb1 & Hid & _).
  assert (Hnone : lines_for (product_id p) db1 = []).
  { subst db1. rewrite Hdb1. unfold lines_for. cbn [carts].
    apply filter_matches_absent. intros Hin. apply Hrefs in Hin.
    rewrite Hid in Hin. exact (below_not_in _ _ Hbelow Hin). }
  assert (Hexists : exists x, In x (products db1) /\ product_id x = product_id p).
  { exists p. subst db1. rewrite Hdb1. cbn [products].
    split; [apply in_or_app; right; now left | reflexivity]. }
  exact (add_creates_line now' pid (product_id p) (option_map JS.int q) _ db1
           Hcast Hexists Hnone (first_quantity_int q Hbound)).
Qed.

Lemma created_product_can_be_added_witness :
  let db1 := fst (post_api_products 1700000000005 milk shop) in
  snd (post_api_cart 1700000000006
         (mkCartRequest (Some bread_id) None) db1)
    = json 201 (CartAdded "Product added to cart successfully"
                  (mkCart 2%N 1%N (units 1) 1700000000006)).
Proof.
  intros db1.
  refine (proj1 (created_product_can_be_added
                   1700000000005 1700000000006 milk shop
                   "Product created successfully"
                   (product_of shop 1700000000005 milk [])
                   bread_id None _ eq_refl eq_refl _)).
  - apply (reachable_run _ (empty_db 0%N)). constructor.
  - discriminate.
Defined.

(** *** Listing after creating *)

Lemma sort_snoc_newest (l : list Product) (p : Product) :
  Forall (fun x => createdAt x < createdAt p) l ->
  sort_createdAt_desc (l ++ [p]) = p :: sort_createdAt_desc l.
Proof.
  induction 1 as [|x l Hx _ IH]; [reflexivity|].
  cbn [app sort_createdAt_desc fold_right].
  fold (sort_createdAt_desc (l ++ [p])). fold (sort_createdAt_desc l).
  rewrite IH. cbn [insert_desc].
  destruct (createdAt p <=? createdAt x) eqn:Hcmp; [|reflexivity].
  apply Z.leb_le in Hcmp. lia.
Qed.

(** X17. When the clock reading of a successful [POST /api/products]
    is later than the [createdAt] of every stored product, the next
    [GET /api/products] lists the new product first, followed by the
    products stored before. *)
Theorem created_product_is_listed_first
    (now : Z) (req : ProductRequest) (db : DB) (message : string) (p : Product) :
  snd (post_api_products now req db) = json 201 (ProductCreated message p) ->
  Forall (fun x => createdAt x < now) (products db) ->
  exists rest,
    snd (get_api_products (fst (post_api_products now req db)))
      = json 200 (ProductList (p :: rest)) /\
    Permutation (products db) rest.
Proof.
  intros Hcreated Holder.
  destruct (product_created_inv now req db message p Hcreated)
    as (Hdb1 & _ & Hat).
  exists (sort_createdAt_desc (products db)).
  split; [|apply sort_createdAt_desc_perm].
  rewrite Hdb1.
  change (snd (get_api_products
                 (mkDB (products db ++ [p]) (carts db) (N.succ (nextObjectId db)))))
    with (json 200 (ProductList (sort_createdAt_desc (products db ++ [p])))).
  rewrite sort_snoc_newest; [reflexivity|].
  now rewrite Hat.
Qed.

Lemma created_product_is_listed_first_witness :
  exists rest,
    snd (get_api_products (fst (post_api_products 1700000000005 milk shop)))
      = json 200 (ProductList
                    (product_of shop 1700000000005 milk [] :: rest)) /\
    Permutation (products shop) rest.
Proof.
  apply (created_product_is_listed_first 1700000000005 milk shop
           "Product created successfully"
           (product_of shop 1700000000005 milk [])).
  - reflexivity.
  - repeat constructor.
Defined.

(** *** Schema violations *)

Lemma validateProduct_violation (p : Product) :
  ~ In (itemType p) itemType_enum \/
  JS.leb (JS.Finite 0) (rating p) = false \/
  JS.leb (rating p) (JS.Finite 5) = false ->
  exists path, validateProduct p = Some path.
Proof.
  intros H. unfold validateProduct.
  destruct (String.eqb (title p) ""); [eexists; reflexivity|].
  destruct (JS.isNaN (price p)); [eexists; reflexivity|].
  destruct (JS.isNaN (discount p)); [eexists; reflexivity|].
  destruct (existsb (String.eqb (itemType p)) itemType_enum) eqn:Htype;
    cbn [negb]; [|eexists; reflexivity].
  destruct (JS.isNaN (rating p)); [eexists; reflexivity|].
  destruct (JS.leb (JS.Finite 0) (rating p)) eqn:Hlo;
    cbn [negb]; [|eexists; reflexivity].
  destruct (JS.leb (rating p) (JS.Finite 5)) eqn:Hhi;
    cbn [negb]; [|eexists; reflexivity].
  exfalso. destruct H as [H | [H | H]]; try discriminate.
  apply H. apply existsb_exists in Htype as (t & Hin & Heq).
  apply String.eqb_eq in Heq. now subst t.
Qed.

(** X19. A request whose upload passes and whose title and price are
    given, but whose item type is given and is none of [cold],
    [organic], [regular], or whose rating is given and reads as a
    number outside 0..5, is answered 500 with
    [{error: "Internal server error"}], and neither collection
    changes. *)
Theorem schema_violation_answers_500
    (now : Z) (req : ProductRequest) (db : DB) (stored : list StoredFile) :
  Multer.array "images" 5 (req_files req) = inr stored ->
  JS.truthy (req_title req) = true ->
  JS.truthy (req_price req) = true ->
  (JS.truthy (req_itemType req) = true /\
   ~ In (JS.or_else_str (req_itemType req) "regular") itemType_enum) \/
  (JS.truthy (req_rating req) = true /\
   (JS.leb (JS.Finite 0) (JS.parseFloat_field (req_rating req)) = false \/
    JS.leb (JS.parseFloat_field (req_rating req)) (JS.Finite 5) = false)) ->
  snd (post_api_products now req db)
    = json 500 (ErrorBody "Internal server error") /\
  products (fst (post_api_products now req db)) = products db /\
  carts (fst (post_api_products now req db)) = carts db.
Proof.
  intros Hup Htitle Hprice Hbad.
  rewrite post_api_products_unfold, Hup, Htitle, Hprice.
  cbn [negb orb]. cbv zeta.
  destruct (validateProduct_violation (product_of db now req stored))
    as [path Hpath].
  - unfold product_of. cbn [itemType rating].
    destruct Hbad as [[_ Htype] | [Hgiven Hrange]]; [now left|].
    right. now rewrite Hgiven.
  - rewrite Hpath. repeat split.
Qed.

Lemma schema_violation_answers_500_witness :
  let req := mkProductRequest (Some "Ice") (Some "2") None
               (Some "frozen") (Some "7") [] in
  snd (post_api_products 1700000000005 req shop)
    = json 500 (ErrorBody "Internal server error").
Proof.
  intros req.
  refine (proj1 (schema_violation_answers_500 1700000000005 req shop []
                   eq_refl eq_refl eq_refl _)).
  left. split; [reflexivity|].
  cbn. intros [H | [H | [H | []]]]; discriminate.
Defined.
